(** * Prometheus receiver: the per-scrape transaction

    A shallow embedding of
    [receiver/prometheusreceiver/internal/transaction.go]: the appender
    state machine ([Append], [AppendExemplar], [Commit], [Rollback]), the
    start-time stamping of OpenCensus metrics ([adjustStartTimestamp],
    [timestampFromFloat64]) and the staleness pass over the pdata batch
    ([fixStaleMetrics]).

    Conventions.
    - An [int64] is a [Z]; a [float64] is the [Z] holding its IEEE-754
      binary64 bit pattern (what [math.Float64bits] returns), so that two
      NaNs with different payloads stay different.  Arithmetic on such a
      value goes through [spec_float] with precision 53 and [emax] 1024.
    - A Go pointer that may be nil is an [option].
    - A method that mutates its receiver returns the new receiver.
    - Calls that leave the transaction (metadata service, builder,
      obsreport, translator, adjuster, sink) are recorded, in program
      order, in a list of [event]s. *)

From Stdlib Require Import ZArith Lia Bool.
From Stdlib Require Import Floats.SpecFloat.
From stdpp Require Import base option list strings gmap.

Local Open Scope string_scope.
Local Open Scope Z_scope.

(** ** float64 *)

Module Float64.

Definition float64 := Z.

Definition prec : Z := 53.
Definition emax : Z := 1024.

(** [math.Float64frombits], read as a [spec_float]: sign bit 63, biased
    exponent in bits 62..52, fraction in bits 51..0. *)
Definition decode (b : float64) : spec_float :=
  let s := Z.testbit b 63 in
  let e := Z.land (Z.shiftr b 52) 0x7ff in
  let m := Z.land b 0xfffffffffffff in
  if e =? 0x7ff then (if m =? 0 then S754_infinity s else S754_nan)
  else if e =? 0 then
    match m with
    | Z.pos p => S754_finite s p (-1074)
    | _ => S754_zero s
    end
  else
    match Z.lor m 0x10000000000000 with
    | Z.pos p => S754_finite s p (e - 1075)
    | _ => S754_zero s
    end.

(** Go's [float64(n)] for an [int64] [n]: round to nearest, ties to even. *)
Definition of_int64 (n : Z) : spec_float :=
  binary_normalize prec emax n 0 false.

Definition min_int64 : Z := - 2 ^ 63.
Definition max_int64 : Z := 2 ^ 63 - 1.

(** Go's [int64(f)]: the fraction is discarded.  For NaN, the infinities
    and values outside the [int64] range the Go specification leaves the
    result to the implementation; amd64 yields the minimum [int64]. *)
Definition to_int64 (f : spec_float) : Z :=
  match f with
  | S754_zero _ => 0
  | S754_finite s m e =>
      let mag := if 0 <=? e then Z.shiftl (Z.pos m) e
                 else Z.shiftr (Z.pos m) (- e) in
      let n := if s then - mag else mag in
      if (min_int64 <=? n) && (n <=? max_int64) then n else min_int64
  | _ => min_int64
  end.

(** Go's [int32(n)] for an [int64] [n]: the low 32 bits, sign extended. *)
Definition int32_of_int64 (n : Z) : Z :=
  (n + 2 ^ 31) mod 2 ^ 32 - 2 ^ 31.

Definition sub (x y : spec_float) : spec_float := SFsub prec emax x y.
Definition mul (x y : spec_float) : spec_float := SFmul prec emax x y.

(** The constant [1e9]. *)
Definition billion : spec_float := of_int64 1000000000.

(** [f == 0.0] *)
Definition is_zero (b : float64) : bool := SFeqb (decode b) (S754_zero false).

(** The bit pattern of [+0.0], the value the setters below are given. *)
Definition zero : float64 := 0.

End Float64.
Export Float64.

(** ** github.com/prometheus/prometheus/model/value *)

Module value.

(** [NormalNaN] is the NaN of ordinary computations, [StaleNaN] the
    signalling NaN reserved as the staleness marker. *)
Definition NormalNaN : float64 := 0x7ff8000000000001.
Definition StaleNaN : float64 := 0x7ff0000000000002.

(** [IsStaleNaN(v)] is [math.Float64bits(v) == StaleNaN]. *)
Definition IsStaleNaN (v : float64) : bool := v =? StaleNaN.

End value.

(** ** github.com/prometheus/prometheus/model/labels *)

Module labels.

Record Label := { Name : string; Value : string }.

Abbreviation Labels := (list Label).

(** [ls.Get(name)]: the value of the first label called [name], the
    empty string when there is none. *)
Fixpoint Get (ls : Labels) (name : string) : string :=
  match ls with
  | [] => ""
  | l :: ls' => if String.eqb (Name l) name then Value l else Get ls' name
  end.

End labels.

(** [model.JobLabel], [model.InstanceLabel], [model.SchemeLabel] and
    [model.MetricNameLabel] of github.com/prometheus/common/model. *)
Definition JobLabel : string := "job".
Definition InstanceLabel : string := "instance".
Definition SchemeLabel : string := "__scheme__".
Definition MetricNameLabel : string := "__name__".

(** The constants of transaction.go. *)
Definition portAttr : string := "port".
Definition schemeAttr : string := "scheme".
Definition jobAttr : string := "job".
Definition instanceAttr : string := "instance".
Definition transport : string := "http".
Definition dataformat : string := "prometheus".

(** ** Errors

    The four sentinel errors declared in transaction.go, the builder's
    [errNoDataToBuild] (declared next to the builder), [storage.ErrNotFound]
    and [errOther] for the errors of the collaborators (metadata lookup,
    sink). *)
Inductive error :=
| errMetricNameNotFound
| errTransactionAborted
| errNoJobInstance
| errNoStartTimeMetrics
| errNoDataToBuild
| ErrNotFound
| errOther (msg : string).

(** ** OpenCensus protos (commonpb, resourcepb, metricspb, timestamppb)

    Only the messages transaction.go reads or writes; the elements of a
    repeated pointer field are taken to be non-nil. *)

Module commonpb.
Record ProcessIdentifier := { HostName : string }.
Record ServiceInfo := { Name : string }.
Record Node :=
  { Identifier : option ProcessIdentifier; ServiceInfo_ : option ServiceInfo }.
End commonpb.

Module resourcepb.
Record Resource := { Labels : gmap string string }.
End resourcepb.

Module timestamppb.
Record Timestamp := { Seconds : Z; Nanos : Z }.
End timestamppb.

Module metricspb.

Inductive MetricDescriptor_Type :=
| UNSPECIFIED
| GAUGE_INT64
| GAUGE_DOUBLE
| GAUGE_DISTRIBUTION
| CUMULATIVE_INT64
| CUMULATIVE_DOUBLE
| CUMULATIVE_DISTRIBUTION
| SUMMARY.

Record MetricDescriptor :=
  { Name : string; Description : string; Unit : string;
    Type_ : MetricDescriptor_Type; LabelKeys : list string }.

Inductive PointValue :=
| Int64Value (n : Z)
| DoubleValue (v : float64)
| DistributionValue (count : Z) (sum : float64) (bounds : list float64)
    (buckets : list Z)
| SummaryValue (count : Z) (sum : float64)
    (percentiles : list (float64 * float64)).

Record Point :=
  { Timestamp : option timestamppb.Timestamp; Value : PointValue }.

Record TimeSeries :=
  { StartTimestamp : option timestamppb.Timestamp;
    LabelValues : list (option string);
    Points : list Point }.

Record Metric :=
  { MetricDescriptor_ : option MetricDescriptor;
    Timeseries : list TimeSeries }.

(** The generated getters: a nil descriptor has type [UNSPECIFIED]. *)
Definition GetMetricDescriptor (m : Metric) : option MetricDescriptor :=
  MetricDescriptor_ m.

Definition GetType (d : option MetricDescriptor) : MetricDescriptor_Type :=
  match d with
  | Some d => Type_ d
  | None => UNSPECIFIED
  end.

Definition GetTimeseries (m : Metric) : list TimeSeries := Timeseries m.

End metricspb.

(** ** Start-time stamping *)

(** [timestampFromFloat64]:
<<
    secs := int64(ts)
    nanos := int64((ts - float64(secs)) * 1e9)
    return &timestamppb.Timestamp{Seconds: secs, Nanos: int32(nanos)}
>> *)
Definition timestampFromFloat64 (ts : float64) : timestamppb.Timestamp :=
  let secs := to_int64 (decode ts) in
  let nanos := to_int64 (mul (sub (decode ts) (of_int64 secs)) billion) in
  {| timestamppb.Seconds := secs;
     timestamppb.Nanos := int32_of_int64 nanos |}.

(** [ts.StartTimestamp = startTimeTs] *)
Definition setStartTimestamp (startTimeTs : timestamppb.Timestamp)
    (ts : metricspb.TimeSeries) : metricspb.TimeSeries :=
  {| metricspb.StartTimestamp := Some startTimeTs;
     metricspb.LabelValues := metricspb.LabelValues ts;
     metricspb.Points := metricspb.Points ts |}.

(** The body of the loop of [adjustStartTimestamp] for one metric. *)
Definition adjustStartTimestampMetric (startTimeTs : timestamppb.Timestamp)
    (metric : metricspb.Metric) : metricspb.Metric :=
  match metricspb.GetType (metricspb.GetMetricDescriptor metric) with
  | metricspb.GAUGE_DOUBLE | metricspb.GAUGE_DISTRIBUTION => metric
  | _ =>
      {| metricspb.MetricDescriptor_ := metricspb.MetricDescriptor_ metric;
         metricspb.Timeseries :=
           map (setStartTimestamp startTimeTs) (metricspb.GetTimeseries metric) |}
  end.

Definition adjustStartTimestamp (startTime : float64)
    (metrics : list metricspb.Metric) : list metricspb.Metric :=
  let startTimeTs := timestampFromFloat64 startTime in
  map (adjustStartTimestampMetric startTimeTs) metrics.

(** ** go.opentelemetry.io/collector/model/pdata

    The metrics batch as the staleness pass and [DataPointCount] see it.
    A number data point holds a double, an integer or nothing;
    [DoubleVal] of a point that holds no double is [+0.0]. *)

Module pdata.

Definition MetricDataPointFlags := Z.
Definition Timestamp := Z.
Definition AttributeMap := list (string * string).

Inductive NumberValue :=
| ValNone
| ValInt (n : Z)
| ValDouble (v : float64).

Record NumberDataPoint :=
  { nAttributes : AttributeMap;
    nStartTimestamp : Timestamp;
    nTimestamp : Timestamp;
    nValue : NumberValue;
    nFlags : MetricDataPointFlags }.

Definition DoubleVal (dp : NumberDataPoint) : float64 :=
  match nValue dp with
  | ValDouble v => v
  | _ => zero
  end.

Record HistogramDataPoint :=
  { hAttributes : AttributeMap;
    hStartTimestamp : Timestamp;
    hTimestamp : Timestamp;
    hCount : Z;
    hSum : float64;
    hBucketCounts : list Z;
    hExplicitBounds : list float64;
    hFlags : MetricDataPointFlags }.

Record ValueAtQuantile := { Quantile : float64; QValue : float64 }.

Record SummaryDataPoint :=
  { sAttributes : AttributeMap;
    sStartTimestamp : Timestamp;
    sTimestamp : Timestamp;
    sCount : Z;
    sSum : float64;
    sQuantileValues : list ValueAtQuantile;
    sFlags : MetricDataPointFlags }.

Record ExponentialHistogramDataPoint :=
  { eAttributes : AttributeMap;
    eStartTimestamp : Timestamp;
    eTimestamp : Timestamp;
    eCount : Z;
    eSum : float64;
    eScale : Z;
    eZeroCount : Z;
    ePositive : Z * list Z;
    eNegative : Z * list Z;
    eFlags : MetricDataPointFlags }.

Inductive AggregationTemporality :=
| TemporalityUnspecified
| TemporalityDelta
| TemporalityCumulative.

(** [metric.DataType()] together with the data of that type. *)
Inductive MetricData :=
| DataNone
| DataGauge (dps : list NumberDataPoint)
| DataSum (t : AggregationTemporality) (monotonic : bool)
    (dps : list NumberDataPoint)
| DataHistogram (t : AggregationTemporality) (dps : list HistogramDataPoint)
| DataExponentialHistogram (t : AggregationTemporality)
    (dps : list ExponentialHistogramDataPoint)
| DataSummary (dps : list SummaryDataPoint).

Record Metric :=
  { Name : string; Description : string; Unit : string; Data : MetricData }.

Record InstrumentationLibraryMetrics :=
  { LibraryName : string; LibraryVersion : string; Metrics_ : list Metric }.

Record ResourceMetrics :=
  { ResourceAttributes : AttributeMap;
    InstrumentationLibraryMetrics_ : list InstrumentationLibraryMetrics }.

(** [pdata.Metrics] with its [orig] set: the resource metrics it holds.
    The zero value of the type, whose [orig] is nil and whose accessors
    dereference it, is not one of these; [Commit] meets it only where
    [convertAndForward] says so. *)
Abbreviation Metrics := (list ResourceMetrics).

(** [RemoveIf(f)] drops the elements on which [f] answers true. *)
Definition RemoveIf {A} (f : A -> bool) (l : list A) : list A :=
  List.filter (fun x => negb (f x)) l.

Definition metricPointCount (m : Metric) : Z :=
  match Data m with
  | DataNone => 0
  | DataGauge dps => Z.of_nat (length dps)
  | DataSum _ _ dps => Z.of_nat (length dps)
  | DataHistogram _ dps => Z.of_nat (length dps)
  | DataExponentialHistogram _ dps => Z.of_nat (length dps)
  | DataSummary dps => Z.of_nat (length dps)
  end.

Definition sumZ (l : list Z) : Z := foldr Z.add 0 l.

(** [md.DataPointCount()] *)
Definition DataPointCount (md : Metrics) : Z :=
  sumZ (map (fun rm =>
    sumZ (map (fun ilm => sumZ (map metricPointCount (Metrics_ ilm)))
            (InstrumentationLibraryMetrics_ rm))) md).

End pdata.

(** ** The rest of the package

    transaction.go calls into files of the package and into packages of the
    repository that are not part of the sources at hand, and into the Go
    library.  They are taken as an interface: every theorem on the
    transaction holds for each implementation of it.

    - metadata.go: [MetadataCache] with [SharedLabels].
    - metricsbuilder.go: [metricBuilder] with [newMetricBuilder],
      [AddDataPoint], [Build] (the metrics and the error of its four
      results; the two counters are discarded by [Commit]) and the field
      [startTime].
    - metrics_adjuster_pdata.go: [JobsMapPdata]; [AdjustMetrics jm job
      instance md] stands for
      [NewMetricsAdjusterPdata(jm.get(job, instance), logger).AdjustMetrics(&md)]
      and returns the jobs map and the batch as the call leaves them.
    - pkg/translator/opencensus: [OCToMetrics].
    - the package variable [pdataStaleFlags] and [isDiscernibleHost].
    - [net.SplitHostPort], returning host, port and error. *)
Class Collaborators := {
  MetadataCache : Type;
  SharedLabels : MetadataCache -> labels.Labels;
  metricBuilder : Type;
  newMetricBuilder : MetadataCache -> bool -> string -> Z -> metricBuilder;
  AddDataPoint :
    metricBuilder -> labels.Labels -> Z -> float64 -> metricBuilder * option error;
  Build : metricBuilder -> metricBuilder * list metricspb.Metric * option error;
  startTime : metricBuilder -> float64;
  JobsMapPdata : Type;
  AdjustMetrics :
    JobsMapPdata -> string -> string -> pdata.Metrics -> JobsMapPdata * pdata.Metrics;
  OCToMetrics :
    option commonpb.Node -> option resourcepb.Resource ->
    list metricspb.Metric -> pdata.Metrics;
  pdataStaleFlags : pdata.MetricDataPointFlags;
  isDiscernibleHost : string -> bool;
  SplitHostPort : string -> string * string * option error
}.

Section Receiver.

Context `{Collaborators}.

(** *** The staleness pass *)

Definition fixStaleHistogramPoint (dp : pdata.HistogramDataPoint) :
    pdata.HistogramDataPoint :=
  if value.IsStaleNaN (pdata.hSum dp) then
    {| pdata.hAttributes := pdata.hAttributes dp;
       pdata.hStartTimestamp := pdata.hStartTimestamp dp;
       pdata.hTimestamp := pdata.hTimestamp dp;
       pdata.hCount := 0;
       pdata.hSum := zero;
       pdata.hBucketCounts := [];
       pdata.hExplicitBounds := [];
       pdata.hFlags := pdataStaleFlags |}
  else dp.

Definition fixStaleHistogram (dps : list pdata.HistogramDataPoint) :=
  map fixStaleHistogramPoint dps.

Definition fixStaleSummaryPoint (dp : pdata.SummaryDataPoint) :
    pdata.SummaryDataPoint :=
  if value.IsStaleNaN (pdata.sSum dp) then
    {| pdata.sAttributes := pdata.sAttributes dp;
       pdata.sStartTimestamp := pdata.sStartTimestamp dp;
       pdata.sTimestamp := pdata.sTimestamp dp;
       pdata.sCount := 0;
       pdata.sSum := zero;
       pdata.sQuantileValues :=
         pdata.RemoveIf (fun _ => true) (pdata.sQuantileValues dp);
       pdata.sFlags := pdataStaleFlags |}
  else dp.

Definition fixStaleSummary (dps : list pdata.SummaryDataPoint) :=
  map fixStaleSummaryPoint dps.

(** The body shared by [fixStaleSum] and [fixStaleGauge]. *)
Definition fixStaleNumberPoint (dp : pdata.NumberDataPoint) :
    pdata.NumberDataPoint :=
  if value.IsStaleNaN (pdata.DoubleVal dp) then
    {| pdata.nAttributes := pdata.nAttributes dp;
       pdata.nStartTimestamp := pdata.nStartTimestamp dp;
       pdata.nTimestamp := pdata.nTimestamp dp;
       pdata.nValue := pdata.ValDouble zero;
       pdata.nFlags := pdataStaleFlags |}
  else dp.

Definition fixStaleSum (dps : list pdata.NumberDataPoint) :=
  map fixStaleNumberPoint dps.

Definition fixStaleGauge (dps : list pdata.NumberDataPoint) :=
  map fixStaleNumberPoint dps.

(** The [switch metric.DataType()] of [fixStaleMetrics]; it has no case
    for the other data types. *)
Definition fixStaleData (d : pdata.MetricData) : pdata.MetricData :=
  match d with
  | pdata.DataHistogram t dps => pdata.DataHistogram t (fixStaleHistogram dps)
  | pdata.DataSummary dps => pdata.DataSummary (fixStaleSummary dps)
  | pdata.DataSum t m dps => pdata.DataSum t m (fixStaleSum dps)
  | pdata.DataGauge dps => pdata.DataGauge (fixStaleGauge dps)
  | _ => d
  end.

Definition fixStaleMetric (m : pdata.Metric) : pdata.Metric :=
  {| pdata.Name := pdata.Name m;
     pdata.Description := pdata.Description m;
     pdata.Unit := pdata.Unit m;
     pdata.Data := fixStaleData (pdata.Data m) |}.

Definition fixStaleILM (ilm : pdata.InstrumentationLibraryMetrics) :=
  {| pdata.LibraryName := pdata.LibraryName ilm;
     pdata.LibraryVersion := pdata.LibraryVersion ilm;
     pdata.Metrics_ := map fixStaleMetric (pdata.Metrics_ ilm) |}.

Definition fixStaleRM (rm : pdata.ResourceMetrics) :=
  {| pdata.ResourceAttributes := pdata.ResourceAttributes rm;
     pdata.InstrumentationLibraryMetrics_ :=
       map fixStaleILM (pdata.InstrumentationLibraryMetrics_ rm) |}.

Definition fixStaleMetrics (md : pdata.Metrics) : pdata.Metrics :=
  map fixStaleRM md.

(** *** createNodeAndResource *)

Definition createNodeAndResource (job instance scheme : string) :
    commonpb.Node * resourcepb.Resource :=
  let '(host, port, err) := SplitHostPort instance in
  let host := match err with Some _ => instance | None => host end in
  let node :=
    {| commonpb.ServiceInfo_ := Some {| commonpb.Name := job |};
       commonpb.Identifier :=
         if isDiscernibleHost host
         then Some {| commonpb.HostName := host |} else None |} in
  let resource :=
    {| resourcepb.Labels :=
         <[jobAttr := job]> (<[instanceAttr := instance]>
           (<[portAttr := port]> (<[schemeAttr := scheme]> ∅))) |} in
  (node, resource).

(** *** The transaction *)

(** [ctx.Done()] is all the transaction asks of its context. *)
Record Context_ := { Done : bool }.

(** [consumer.Metrics]: what [ConsumeMetrics] answers for a batch. *)
Definition consumer_Metrics := pdata.Metrics -> option error.

(** [*metadataService]: what [Get(job, instance)] answers. *)
Definition metadataService := string -> string -> MetadataCache + error.

(** The struct [transaction], without its logger; its obsreport receiver
    is visible through the events [EvStartMetricsOp] and
    [EvEndMetricsOp]. *)
Record transaction := {
  id : Z;
  ctx : Context_;
  isNew : bool;
  sink : consumer_Metrics;
  job : string;
  instance : string;
  jobsMap : option JobsMapPdata;
  useStartTimeMetric : bool;
  startTimeMetricRegex : string;
  ms : metadataService;
  node : option commonpb.Node;
  resource : option resourcepb.Resource;
  metricBuilder_ : option metricBuilder;
  externalLabels : labels.Labels;
  startTimeMs : Z
}.

Definition set_isNew (b : bool) (tr : transaction) : transaction :=
  {| id := id tr; ctx := ctx tr; isNew := b; sink := sink tr;
     job := job tr; instance := instance tr; jobsMap := jobsMap tr;
     useStartTimeMetric := useStartTimeMetric tr;
     startTimeMetricRegex := startTimeMetricRegex tr; ms := ms tr;
     node := node tr; resource := resource tr;
     metricBuilder_ := metricBuilder_ tr;
     externalLabels := externalLabels tr; startTimeMs := startTimeMs tr |}.

Definition set_job_instance (j i : string) (tr : transaction) : transaction :=
  {| id := id tr; ctx := ctx tr; isNew := isNew tr; sink := sink tr;
     job := j; instance := i; jobsMap := jobsMap tr;
     useStartTimeMetric := useStartTimeMetric tr;
     startTimeMetricRegex := startTimeMetricRegex tr; ms := ms tr;
     node := node tr; resource := resource tr;
     metricBuilder_ := metricBuilder_ tr;
     externalLabels := externalLabels tr; startTimeMs := startTimeMs tr |}.

Definition set_jobsMap (jm : option JobsMapPdata) (tr : transaction)
    : transaction :=
  {| id := id tr; ctx := ctx tr; isNew := isNew tr; sink := sink tr;
     job := job tr; instance := instance tr; jobsMap := jm;
     useStartTimeMetric := useStartTimeMetric tr;
     startTimeMetricRegex := startTimeMetricRegex tr; ms := ms tr;
     node := node tr; resource := resource tr;
     metricBuilder_ := metricBuilder_ tr;
     externalLabels := externalLabels tr; startTimeMs := startTimeMs tr |}.

Definition set_node_resource (n : option commonpb.Node)
    (r : option resourcepb.Resource) (tr : transaction) : transaction :=
  {| id := id tr; ctx := ctx tr; isNew := isNew tr; sink := sink tr;
     job := job tr; instance := instance tr; jobsMap := jobsMap tr;
     useStartTimeMetric := useStartTimeMetric tr;
     startTimeMetricRegex := startTimeMetricRegex tr; ms := ms tr;
     node := n; resource := r;
     metricBuilder_ := metricBuilder_ tr;
     externalLabels := externalLabels tr; startTimeMs := startTimeMs tr |}.

Definition set_metricBuilder (b : option metricBuilder) (tr : transaction)
    : transaction :=
  {| id := id tr; ctx := ctx tr; isNew := isNew tr; sink := sink tr;
     job := job tr; instance := instance tr; jobsMap := jobsMap tr;
     useStartTimeMetric := useStartTimeMetric tr;
     startTimeMetricRegex := startTimeMetricRegex tr; ms := ms tr;
     node := node tr; resource := resource tr;
     metricBuilder_ := b;
     externalLabels := externalLabels tr; startTimeMs := startTimeMs tr |}.

Definition set_startTimeMs (t : Z) (tr : transaction) : transaction :=
  {| id := id tr; ctx := ctx tr; isNew := isNew tr; sink := sink tr;
     job := job tr; instance := instance tr; jobsMap := jobsMap tr;
     useStartTimeMetric := useStartTimeMetric tr;
     startTimeMetricRegex := startTimeMetricRegex tr; ms := ms tr;
     node := node tr; resource := resource tr;
     metricBuilder_ := metricBuilder_ tr;
     externalLabels := externalLabels tr; startTimeMs := t |}.

(** [newTransaction]; [id] is the value [atomic.AddInt64(&idSeq, 1)]
    returned. *)
Definition newTransaction (id : Z) (ctx : Context_)
    (jobsMap : option JobsMapPdata) (useStartTimeMetric : bool)
    (startTimeMetricRegex : string) (ms : metadataService)
    (sink : consumer_Metrics) (externalLabels : labels.Labels) : transaction :=
  {| id := id; ctx := ctx; isNew := true; sink := sink;
     job := ""; instance := ""; jobsMap := jobsMap;
     useStartTimeMetric := useStartTimeMetric;
     startTimeMetricRegex := startTimeMetricRegex; ms := ms;
     node := None; resource := None; metricBuilder_ := None;
     externalLabels := externalLabels; startTimeMs := -1 |}.

(** *** Calls and their outcome *)

Inductive event :=
| EvMsGet (job instance : string)
| EvNewMetricBuilder (startTimeMs : Z)
| EvAddDataPoint (ls : labels.Labels) (t : Z) (v : float64)
| EvStartMetricsOp
| EvBuild
| EvAdjustStartTimestamp (startTime : float64)
| EvOCToMetrics
| EvFixStaleMetrics
| EvAdjustMetrics (job instance : string)
| EvConsumeMetrics (md : pdata.Metrics)
| EvEndMetricsOp (format : string) (numPoints : Z) (err : option error).

(** A method returns its results, or panics on a nil receiver. *)
Inductive outcome (A : Type) :=
| Returned (a : A)
| Panicked.
Global Arguments Returned {A} a.
Global Arguments Panicked {A}.

Record run (A : Type) := {
  result : outcome A;
  state : transaction;
  trace : list event
}.
Global Arguments result {A} r.
Global Arguments state {A} r.
Global Arguments trace {A} r.

Definition ret {A} (a : A) (tr : transaction) (evs : list event) : run A :=
  {| result := Returned a; state := tr; trace := evs |}.

Definition panic {A} (tr : transaction) (evs : list event) : run A :=
  {| result := Panicked; state := tr; trace := evs |}.

Definition SeriesRef := Z.

(** *** initTransaction *)

Definition initTransaction (tr : transaction) (ls : labels.Labels)
    : option error * transaction * list event :=
  let job := labels.Get ls JobLabel in
  let instance := labels.Get ls InstanceLabel in
  if String.eqb job "" || String.eqb instance "" then
    (Some errNoJobInstance, tr, [])
  else
    match ms tr job instance with
    | inr err => (Some err, tr, [EvMsGet job instance])
    | inl mc =>
        let tr1 := match jobsMap tr with
                   | Some _ => set_job_instance job instance tr
                   | None => tr
                   end in
        let nr := createNodeAndResource job instance
                    (labels.Get (SharedLabels mc) SchemeLabel) in
        let tr2 := set_node_resource (Some (fst nr)) (Some (snd nr)) tr1 in
        let b := newMetricBuilder mc (useStartTimeMetric tr2)
                   (startTimeMetricRegex tr2) (startTimeMs tr2) in
        let tr3 := set_metricBuilder (Some b) tr2 in
        (None, set_isNew false tr3,
         [EvMsGet job instance; EvNewMetricBuilder (startTimeMs tr2)])
    end.

(** *** Append *)

(** [if tr.startTimeMs < 0 { tr.startTimeMs = t }] *)
Definition trackStartTime (t : Z) (tr : transaction) : transaction :=
  if startTimeMs tr <? 0 then set_startTimeMs t tr else tr.

(** [return 0, tr.metricBuilder.AddDataPoint(ls, t, v)] *)
Definition addToBuilder (tr : transaction) (evs : list event)
    (ls : labels.Labels) (t : Z) (v : float64)
    : run (SeriesRef * option error) :=
  match metricBuilder_ tr with
  | None => panic tr evs
  | Some b =>
      let r := AddDataPoint b ls t v in
      ret (0, snd r) (set_metricBuilder (Some (fst r)) tr)
          (evs ++ [EvAddDataPoint ls t v])%list
  end.

Definition Append (tr : transaction) (ref : SeriesRef) (ls : labels.Labels)
    (t : Z) (v : float64) : run (SeriesRef * option error) :=
  let tr := trackStartTime t tr in
  if Done (ctx tr) then ret (0, Some errTransactionAborted) tr []
  else
    let ls := if 0 <? Z.of_nat (length (externalLabels tr))
              then (ls ++ externalLabels tr)%list else ls in
    if isNew tr then
      match initTransaction tr ls with
      | (Some err, tr, evs) => ret (0, Some err) tr evs
      | (None, tr, evs) => addToBuilder tr evs ls t v
      end
    else addToBuilder tr [] ls t v.

(** [exemplar.Exemplar] *)
Record Exemplar := {
  exLabels : labels.Labels;
  exValue : float64;
  exTs : Z;
  exHasTs : bool
}.

Definition AppendExemplar (tr : transaction) (ref : SeriesRef)
    (l : labels.Labels) (e : Exemplar) : run (SeriesRef * option error) :=
  ret (0, None) tr [].

Definition AddFast (tr : transaction) (ref : Z) (t : Z) (v : float64)
    : run (option error) :=
  ret (Some ErrNotFound) tr [].

(** *** Commit *)

(** From [if numPoints > 0] to the end of [Commit]. *)
Definition forward (tr : transaction) (evs : list event)
    (md : pdata.Metrics) (numPoints : Z) : run (option error) :=
  if 0 <? numPoints then
    let err := sink tr md in
    ret err tr
      (evs ++ [EvConsumeMetrics md; EvEndMetricsOp dataformat numPoints err])%list
  else ret None tr (evs ++ [EvEndMetricsOp dataformat numPoints None])%list.

(** From [if !tr.useStartTimeMetric] on. *)
Definition adjustAndForward (tr : transaction) (evs : list event)
    (md : pdata.Metrics) (numPoints : Z) : run (option error) :=
  if negb (useStartTimeMetric tr) then
    match jobsMap tr with
    | None => panic tr evs
    | Some jm =>
        let r := AdjustMetrics jm (job tr) (instance tr) md in
        forward (set_jobsMap (Some (fst r)) tr)
          (evs ++ [EvAdjustMetrics (job tr) (instance tr)])%list (snd r) numPoints
    end
  else forward tr evs md numPoints.

(** From [numPoints := 0] on.  With no metric built, [md] stays the zero
    value of [var md pdata.Metrics], whose [orig] is nil, and [numPoints]
    stays 0.  Outside the start-time-metric mode the adjuster is then
    called on that value and panics on its first access to it (as does
    [tr.jobsMap.get] before it when the jobs map is nil); in
    start-time-metric mode the sink is skipped and the operation ended
    with 0 points. *)
Definition convertAndForward (tr : transaction) (evs : list event)
    (metrics : list metricspb.Metric) : run (option error) :=
  if 0 <? Z.of_nat (length metrics) then
    let md := fixStaleMetrics (OCToMetrics (node tr) (resource tr) metrics) in
    adjustAndForward tr (evs ++ [EvOCToMetrics; EvFixStaleMetrics])%list md
      (pdata.DataPointCount md)
  else if negb (useStartTimeMetric tr) then panic tr evs
  else ret None tr (evs ++ [EvEndMetricsOp dataformat 0 None])%list.

Definition Commit (tr : transaction) : run (option error) :=
  if isNew tr then ret None tr []
  else
    let tr := set_startTimeMs (-1) tr in
    match metricBuilder_ tr with
    | None => panic tr [EvStartMetricsOp]
    | Some b =>
        let '(b, metrics, err) := Build b in
        let tr := set_metricBuilder (Some b) tr in
        let evs := [EvStartMetricsOp; EvBuild] in
        match err with
        | Some e => ret (Some e) tr (evs ++ [EvEndMetricsOp dataformat 0 (Some e)])%list
        | None =>
            if useStartTimeMetric tr then
              if is_zero (startTime b) then
                ret (Some errNoStartTimeMetrics) tr
                  (evs ++ [EvEndMetricsOp dataformat 0
                             (Some errNoStartTimeMetrics)])%list
              else
                convertAndForward tr
                  (evs ++ [EvAdjustStartTimestamp (startTime b)])%list
                  (adjustStartTimestamp (startTime b) metrics)
            else convertAndForward tr evs metrics
        end
    end.

Definition Rollback (tr : transaction) : run (option error) :=
  ret None (set_startTimeMs (-1) tr) [].

(** *** A scrape: a sequence of [Append] calls *)

Record sample := { sLabels : labels.Labels; sT : Z; sV : float64 }.

Definition appendSample (tr : transaction) (s : sample)
    : run (SeriesRef * option error) :=
  Append tr 0 (sLabels s) (sT s) (sV s).

(** The calls of a scrape, each run in the state its predecessor left. *)
Fixpoint appendAll (tr : transaction) (ss : list sample)
    : list (run (SeriesRef * option error)) :=
  match ss with
  | [] => []
  | s :: ss' =>
      let r := appendSample tr s in
      r :: appendAll (state r) ss'
  end.

(** The transaction after the calls. *)
Definition finalState (tr : transaction) (ss : list sample) : transaction :=
  fold_left (fun tr s => state (appendSample tr s)) ss tr.

(** *** Observations on a trace *)

Definition isMsGet (e : event) : bool :=
  match e with EvMsGet _ _ => true | _ => false end.
Definition isAdjustStartTimestamp (e : event) : bool :=
  match e with EvAdjustStartTimestamp _ => true | _ => false end.
Definition isAdjustMetrics (e : event) : bool :=
  match e with EvAdjustMetrics _ _ => true | _ => false end.
Definition isFixStaleMetrics (e : event) : bool :=
  match e with EvFixStaleMetrics => true | _ => false end.
Definition isConsumeMetrics (e : event) : bool :=
  match e with EvConsumeMetrics _ => true | _ => false end.
Definition isBuild (e : event) : bool :=
  match e with EvBuild => true | _ => false end.

(** The adjustment step of either mode. *)
Definition isAdjustment (e : event) : bool :=
  isAdjustStartTimestamp e || isAdjustMetrics e.

(** Some event satisfying [p] occurs strictly before one satisfying [q]. *)
Fixpoint occursBefore (p q : event -> bool) (evs : list event) : bool :=
  match evs with
  | [] => false
  | e :: evs' => (p e && existsb q evs') || occursBefore p q evs'
  end.

(** The identity [initTransaction] binds. *)
Definition boundIdentity (tr : transaction) :=
  (job tr, instance tr, node tr, resource tr).

(** The call succeeded: it returned a nil error. *)
Definition succeeded (r : run (SeriesRef * option error)) : bool :=
  match result r with
  | Returned (_, None) => true
  | _ => false
  end.

End Receiver.

(** ** Observations on a batch *)

(** A data point of any of the pdata point types. *)
Inductive anyPoint :=
| NumberPoint (dp : pdata.NumberDataPoint)
| HistogramPoint (dp : pdata.HistogramDataPoint)
| ExponentialHistogramPoint (dp : pdata.ExponentialHistogramDataPoint)
| SummaryPoint (dp : pdata.SummaryDataPoint).

Definition dataPoints (d : pdata.MetricData) : list anyPoint :=
  match d with
  | pdata.DataNone => []
  | pdata.DataGauge dps => map NumberPoint dps
  | pdata.DataSum _ _ dps => map NumberPoint dps
  | pdata.DataHistogram _ dps => map HistogramPoint dps
  | pdata.DataExponentialHistogram _ dps => map ExponentialHistogramPoint dps
  | pdata.DataSummary dps => map SummaryPoint dps
  end.

(** [md.ResourceMetrics().At(i).InstrumentationLibraryMetrics().At(j).Metrics().At(k)] *)
Definition metricAt (md : pdata.Metrics) (i j k : nat) : option pdata.Metric :=
  rm ← md !! i;
  ilm ← pdata.InstrumentationLibraryMetrics_ rm !! j;
  pdata.Metrics_ ilm !! k.

(** The [l]-th data point of that metric. *)
Definition pointAt (md : pdata.Metrics) (i j k l : nat) : option anyPoint :=
  m ← metricAt md i j k;
  dataPoints (pdata.Data m) !! l.

(** What the staleness pass owes a data point [p], [p'] being the point
    found in its place afterwards: a point whose value (the sum, for a
    histogram or a summary) is the stale marker carries the stale flags
    and has its value, or count, sum, buckets, bounds and quantiles,
    zeroed or emptied; any other point is the same as before. *)
Definition staleFixed (staleFlags : pdata.MetricDataPointFlags)
    (p p' : anyPoint) : Prop :=
  match p, p' with
  | NumberPoint dp, NumberPoint dp' =>
      (pdata.DoubleVal dp = value.StaleNaN ->
         pdata.nFlags dp' = staleFlags
         /\ pdata.nValue dp' = pdata.ValDouble zero
         /\ pdata.nAttributes dp' = pdata.nAttributes dp
         /\ pdata.nStartTimestamp dp' = pdata.nStartTimestamp dp
         /\ pdata.nTimestamp dp' = pdata.nTimestamp dp)
      /\ (pdata.DoubleVal dp <> value.StaleNaN -> dp' = dp)
  | HistogramPoint dp, HistogramPoint dp' =>
      (pdata.hSum dp = value.StaleNaN ->
         pdata.hFlags dp' = staleFlags
         /\ pdata.hCount dp' = 0
         /\ pdata.hSum dp' = zero
         /\ pdata.hBucketCounts dp' = []
         /\ pdata.hExplicitBounds dp' = []
         /\ pdata.hAttributes dp' = pdata.hAttributes dp
         /\ pdata.hStartTimestamp dp' = pdata.hStartTimestamp dp
         /\ pdata.hTimestamp dp' = pdata.hTimestamp dp)
      /\ (pdata.hSum dp <> value.StaleNaN -> dp' = dp)
  | SummaryPoint dp, SummaryPoint dp' =>
      (pdata.sSum dp = value.StaleNaN ->
         pdata.sFlags dp' = staleFlags
         /\ pdata.sCount dp' = 0
         /\ pdata.sSum dp' = zero
         /\ pdata.sQuantileValues dp' = []
         /\ pdata.sAttributes dp' = pdata.sAttributes dp
         /\ pdata.sStartTimestamp dp' = pdata.sStartTimestamp dp
         /\ pdata.sTimestamp dp' = pdata.sTimestamp dp)
      /\ (pdata.sSum dp <> value.StaleNaN -> dp' = dp)
  | ExponentialHistogramPoint dp, ExponentialHistogramPoint dp' => dp' = dp
  | _, _ => False
  end.

(** The smallest of the timestamps [t :: ts]. *)
Definition minTimestamp (t : Z) (ts : list Z) : Z := foldr Z.min t ts.

(** ** Further observations *)

(** Some label of [ls] is called [name]. *)
Definition hasLabel (ls : labels.Labels) (name : string) : bool :=
  existsb (fun l => String.eqb (labels.Name l) name) ls.

(** The test the staleness pass applies to a point: the double value of a
    number point, the sum of a histogram or summary point; a point of
    another type is not tested. *)
Definition markedStale (p : anyPoint) : bool :=
  match p with
  | NumberPoint dp => value.IsStaleNaN (pdata.DoubleVal dp)
  | HistogramPoint dp => value.IsStaleNaN (pdata.hSum dp)
  | SummaryPoint dp => value.IsStaleNaN (pdata.sSum dp)
  | ExponentialHistogramPoint _ => false
  end.

(** The data points of a batch, in the order of the three nested loops. *)
Definition metricPoints (m : pdata.Metric) : list anyPoint :=
  dataPoints (pdata.Data m).

Definition libraryPoints (ilm : pdata.InstrumentationLibraryMetrics)
    : list anyPoint :=
  flat_map metricPoints (pdata.Metrics_ ilm).

Definition resourcePoints (rm : pdata.ResourceMetrics) : list anyPoint :=
  flat_map libraryPoints (pdata.InstrumentationLibraryMetrics_ rm).

Definition allPoints (md : pdata.Metrics) : list anyPoint :=
  flat_map resourcePoints md.

(** Some point of the batch passes the test of the staleness pass. *)
Definition hasStaleMarker (md : pdata.Metrics) : bool :=
  existsb markedStale (allPoints md).

(** The data of a metric without its points: its type, with the
    aggregation temporality and monotonicity where the type has them. *)
Definition dataShape (d : pdata.MetricData) : pdata.MetricData :=
  match d with
  | pdata.DataNone => pdata.DataNone
  | pdata.DataGauge _ => pdata.DataGauge []
  | pdata.DataSum t m _ => pdata.DataSum t m []
  | pdata.DataHistogram t _ => pdata.DataHistogram t []
  | pdata.DataExponentialHistogram t _ => pdata.DataExponentialHistogram t []
  | pdata.DataSummary _ => pdata.DataSummary []
  end.

Definition isStartMetricsOp (e : event) : bool :=
  match e with EvStartMetricsOp => true | _ => false end.
Definition isEndMetricsOp (e : event) : bool :=
  match e with EvEndMetricsOp _ _ _ => true | _ => false end.
Definition isAddDataPoint (e : event) : bool :=
  match e with EvAddDataPoint _ _ _ => true | _ => false end.
Definition isNewMetricBuilder (e : event) : bool :=
  match e with EvNewMetricBuilder _ => true | _ => false end.

(** The events an [Append] may leave: the lookup, the creation of the
    builder and the hand-over of the sample. *)
Definition isAppendEvent (e : event) : bool :=
  isMsGet e || isNewMetricBuilder e || isAddDataPoint e.

(** The labels [Append] works with: the sample's, then the external ones. *)
Definition overlaid (ls ext : labels.Labels) : labels.Labels := (ls ++ ext)%list.

Section MoreObservations.

Context `{Collaborators}.

(** What the staleness pass does to a point of any type. *)
Definition fixStalePoint (p : anyPoint) : anyPoint :=
  match p with
  | NumberPoint dp => NumberPoint (fixStaleNumberPoint dp)
  | HistogramPoint dp => HistogramPoint (fixStaleHistogramPoint dp)
  | SummaryPoint dp => SummaryPoint (fixStaleSummaryPoint dp)
  | ExponentialHistogramPoint dp => ExponentialHistogramPoint dp
  end.

(** The answers of the builder to the samples of a scrape, each sample
    handed, with the external labels [ext] after its own, to the builder
    as the samples before it left it. *)
Fixpoint builderAnswers (b : metricBuilder) (ext : labels.Labels)
    (ss : list sample) : list (option error) :=
  match ss with
  | [] => []
  | s :: ss' =>
      let r := AddDataPoint b (overlaid (sLabels s) ext) (sT s) (sV s) in
      snd r :: builderAnswers (fst r) ext ss'
  end.

(** The fields of a transaction that neither [Commit] nor [Rollback]
    assigns. *)
Definition configuration (tr : transaction) :=
  (id tr, ctx tr, isNew tr, sink tr, useStartTimeMetric tr,
   startTimeMetricRegex tr, ms tr, externalLabels tr).

End MoreObservations.

(** ** An instance of the interface

    Used to run the transaction on concrete scrapes. *)

Module Demo.

(** Modelled from the spec: the MetadataService, which resolves a (job,
    instance) pair to the target's metadata with its shared label set
    (holding the scrape scheme), or answers not-found; see [knownTarget]
    below. *)
Record cache := { shared : labels.Labels }.

(** Modelled from the spec: the MetricFamilyBuilder.  It accumulates the
    samples of one scrape; a sample without a metric name is answered
    with metric-name-not-found; in start-time-metric mode the value of
    the sample named by the configured start-time metric is kept as the
    start time; [Build] fails with no-data-to-build exactly when nothing
    was accumulated, and otherwise returns one untyped (gauge) metric per
    sample. *)
Record builder := {
  bUseStartTimeMetric : bool;
  bStartTimeMetricRegex : string;
  bIntervalStartTimeMs : Z;
  bStartTime : float64;
  bPoints : list sample
}.

Definition newBuilder (mc : cache) (useStartTimeMetric : bool)
    (startTimeMetricRegex : string) (intervalStartTimeMs : Z) : builder :=
  {| bUseStartTimeMetric := useStartTimeMetric;
     bStartTimeMetricRegex := startTimeMetricRegex;
     bIntervalStartTimeMs := intervalStartTimeMs;
     bStartTime := zero;
     bPoints := [] |}.

Definition addDataPoint (b : builder) (ls : labels.Labels) (t : Z)
    (v : float64) : builder * option error :=
  let name := labels.Get ls MetricNameLabel in
  if String.eqb name "" then (b, Some errMetricNameNotFound)
  else
    ({| bUseStartTimeMetric := bUseStartTimeMetric b;
        bStartTimeMetricRegex := bStartTimeMetricRegex b;
        bIntervalStartTimeMs := bIntervalStartTimeMs b;
        bStartTime :=
          if bUseStartTimeMetric b && String.eqb name (bStartTimeMetricRegex b)
          then v else bStartTime b;
        bPoints := bPoints b ++ [ {| sLabels := ls; sT := t; sV := v |} ] |},
     None).

Definition toMetric (s : sample) : metricspb.Metric :=
  {| metricspb.MetricDescriptor_ :=
       Some {| metricspb.Name := labels.Get (sLabels s) MetricNameLabel;
               metricspb.Description := "";
               metricspb.Unit := "";
               metricspb.Type_ := metricspb.GAUGE_DOUBLE;
               metricspb.LabelKeys := [] |};
     metricspb.Timeseries :=
       [ {| metricspb.StartTimestamp := None;
            metricspb.LabelValues := [];
            metricspb.Points :=
              [ {| metricspb.Timestamp :=
                     Some {| timestamppb.Seconds := sT s / 1000;
                             timestamppb.Nanos := (sT s mod 1000) * 1000000 |};
                   metricspb.Value := metricspb.DoubleValue (sV s) |} ] |} ] |}.

Definition build (b : builder)
    : builder * list metricspb.Metric * option error :=
  match bPoints b with
  | [] => (b, [], Some errNoDataToBuild)
  | _ => (b, map toMetric (bPoints b), None)
  end.

(** Modelled from the spec: the translation to the typed batch, one
    gauge data point per double-valued point. *)
Definition toNumberPoint (p : metricspb.Point) : pdata.NumberDataPoint :=
  {| pdata.nAttributes := [];
     pdata.nStartTimestamp := 0;
     pdata.nTimestamp :=
       match metricspb.Timestamp p with
       | Some ts => timestamppb.Seconds ts * 1000000000 + timestamppb.Nanos ts
       | None => 0
       end;
     pdata.nValue :=
       match metricspb.Value p with
       | metricspb.DoubleValue v => pdata.ValDouble v
       | metricspb.Int64Value n => pdata.ValInt n
       | _ => pdata.ValNone
       end;
     pdata.nFlags := 0 |}.

Definition toPdataMetric (m : metricspb.Metric) : pdata.Metric :=
  {| pdata.Name :=
       match metricspb.MetricDescriptor_ m with
       | Some d => metricspb.Name d
       | None => ""
       end;
     pdata.Description := "";
     pdata.Unit := "";
     pdata.Data :=
       pdata.DataGauge
         (map toNumberPoint
            (concat (map metricspb.Points (metricspb.Timeseries m)))) |}.

Definition ocToMetrics (n : option commonpb.Node)
    (r : option resourcepb.Resource) (metrics : list metricspb.Metric)
    : pdata.Metrics :=
  [ {| pdata.ResourceAttributes := [];
       pdata.InstrumentationLibraryMetrics_ :=
         [ {| pdata.LibraryName := "";
              pdata.LibraryVersion := "";
              pdata.Metrics_ := map toPdataMetric metrics |} ] |} ].

(** Modelled from the spec: the JobsMap, here the number of batches it
    was asked to adjust; gauges pass the adjuster unchanged. *)
Definition adjustMetrics (jm : nat) (job instance : string)
    (md : pdata.Metrics) : nat * pdata.Metrics := (S jm, md).

(** Modelled from the spec: the port of the resource identity is what
    follows the last colon of the instance. *)
Fixpoint splitHostPort' (s : string) : option (string * string) :=
  match s with
  | EmptyString => None
  | String c s' =>
      match splitHostPort' s' with
      | Some (h, p) => Some (String c h, p)
      | None => if Ascii.eqb c (Ascii.ascii_of_nat 58) then Some ("", s') else None
      end
  end.

Definition splitHostPort (s : string) : string * string * option error :=
  match splitHostPort' s with
  | Some (h, p) => (h, p, None)
  | None => ("", "", Some (errOther "missing port in address"))
  end.

Definition collaborators : Collaborators :=
  {| MetadataCache := cache;
     SharedLabels := shared;
     metricBuilder := builder;
     newMetricBuilder := newBuilder;
     AddDataPoint := addDataPoint;
     Build := build;
     startTime := bStartTime;
     JobsMapPdata := nat;
     AdjustMetrics := adjustMetrics;
     OCToMetrics := ocToMetrics;
     pdataStaleFlags := 1;
     isDiscernibleHost :=
       fun h => negb (String.eqb h "" || String.eqb h "localhost");
     SplitHostPort := splitHostPort |}.

Definition knownTarget : @metadataService collaborators :=
  fun job instance =>
    if String.eqb job "node" && String.eqb instance "localhost:9100"
    then inl {| shared := [ {| labels.Name := SchemeLabel;
                               labels.Value := "http" |} ] |}
    else inr (errOther "unable to find a target group with job").

Definition acceptingSink : consumer_Metrics := fun _ => None.

Definition background : Context_ := {| Done := false |}.
Definition cancelled : Context_ := {| Done := true |}.

(** A new transaction in the JobsMap mode. *)
Definition fresh (ctx : Context_) : @transaction collaborators :=
  newTransaction (H := collaborators) 1 ctx (Some 0%nat) false "" knownTarget acceptingSink [].

(** A new transaction in the start-time-metric mode. *)
Definition freshStartTime (ctx : Context_) : @transaction collaborators :=
  newTransaction (H := collaborators) 2 ctx None true "process_start_time_seconds" knownTarget
    acceptingSink [].

Definition lbl (n v : string) : labels.Label :=
  {| labels.Name := n; labels.Value := v |}.

(** [up{job="node",instance="localhost:9100"} v] at time [t]. *)
Definition up (t : Z) (v : float64) : sample :=
  {| sLabels := [lbl MetricNameLabel "up"; lbl InstanceLabel "localhost:9100";
                 lbl JobLabel "node"];
     sT := t; sV := v |}.

(** A sample of a target the metadata service does not know. *)
Definition stray (t : Z) : sample :=
  {| sLabels := [lbl MetricNameLabel "up"; lbl InstanceLabel "nowhere:1";
                 lbl JobLabel "other"];
     sT := t; sV := 0x3ff0000000000000 |}.

(** A sample of the known target that carries no metric name. *)
Definition nameless (t : Z) : sample :=
  {| sLabels := [lbl InstanceLabel "localhost:9100"; lbl JobLabel "node"];
     sT := t; sV := 0x3ff0000000000000 |}.

(** The bit pattern of [1.0]. *)
Definition one : float64 := 0x3ff0000000000000.

(** The known target after one sample without a metric name: the
    transaction is initialized, its builder holds no data point. *)
Definition initializedEmpty : @transaction collaborators :=
  finalState (fresh background) [nameless 4].

(** The known target after one good sample, in either mode. *)
Definition scraped : @transaction collaborators :=
  finalState (fresh background) [up 4 one].

Definition scrapedStartTime : @transaction collaborators :=
  finalState (freshStartTime background) [up 4 one].

(** The start-time-metric mode after the start-time metric, valued 1.5,
    and one more sample. *)
Definition processStartTime (t : Z) (v : float64) : sample :=
  {| sLabels := [lbl MetricNameLabel "process_start_time_seconds";
                 lbl InstanceLabel "localhost:9100"; lbl JobLabel "node"];
     sT := t; sV := v |}.

Definition scrapedWithStartTime : @transaction collaborators :=
  finalState (freshStartTime background)
    [processStartTime 4 0x3ff8000000000000; up 4 one].

(** A batch for the staleness pass: a gauge with a stale point, a point
    holding the ordinary NaN, one holding 1.0 and an integer point; a
    histogram and a summary, each with a stale and a live point. *)
Definition numberPoint (x : pdata.NumberValue) : pdata.NumberDataPoint :=
  {| pdata.nAttributes := [("code", "200")]; pdata.nStartTimestamp := 7;
     pdata.nTimestamp := 9; pdata.nValue := x; pdata.nFlags := 0 |}.

Definition histogramPoint (sum : float64) : pdata.HistogramDataPoint :=
  {| pdata.hAttributes := []; pdata.hStartTimestamp := 7;
     pdata.hTimestamp := 9; pdata.hCount := 10; pdata.hSum := sum;
     pdata.hBucketCounts := [3; 4; 3];
     pdata.hExplicitBounds := [0x3fb999999999999a; 0x3fe0000000000000];
     pdata.hFlags := 0 |}.

Definition summaryPoint (sum : float64) : pdata.SummaryDataPoint :=
  {| pdata.sAttributes := []; pdata.sStartTimestamp := 7;
     pdata.sTimestamp := 9; pdata.sCount := 10; pdata.sSum := sum;
     pdata.sQuantileValues :=
       [ {| pdata.Quantile := 0x3fe0000000000000; pdata.QValue := one |} ];
     pdata.sFlags := 0 |}.

Definition metricOf (name : string) (d : pdata.MetricData) : pdata.Metric :=
  {| pdata.Name := name; pdata.Description := ""; pdata.Unit := "";
     pdata.Data := d |}.

Definition staleBatch : pdata.Metrics :=
  [ {| pdata.ResourceAttributes := [];
       pdata.InstrumentationLibraryMetrics_ :=
         [ {| pdata.LibraryName := ""; pdata.LibraryVersion := "";
              pdata.Metrics_ :=
                [ metricOf "g" (pdata.DataGauge
                    [ numberPoint (pdata.ValDouble value.StaleNaN);
                      numberPoint (pdata.ValDouble value.NormalNaN);
                      numberPoint (pdata.ValDouble one);
                      numberPoint (pdata.ValInt 3) ]);
                  metricOf "h" (pdata.DataHistogram pdata.TemporalityCumulative
                    [ histogramPoint value.StaleNaN; histogramPoint one ]);
                  metricOf "s" (pdata.DataSummary
                    [ summaryPoint value.StaleNaN; summaryPoint value.NormalNaN ]) ] |} ] |} ].

(** Two OpenCensus metrics for the stamping: a cumulative one and a
    gauge. *)
Definition ocMetric (name : string) (ty : metricspb.MetricDescriptor_Type)
    : metricspb.Metric :=
  {| metricspb.MetricDescriptor_ :=
       Some {| metricspb.Name := name; metricspb.Description := "";
               metricspb.Unit := ""; metricspb.Type_ := ty;
               metricspb.LabelKeys := [] |};
     metricspb.Timeseries :=
       [ {| metricspb.StartTimestamp := None;
            metricspb.LabelValues := [Some "a"];
            metricspb.Points :=
              [ {| metricspb.Timestamp := None;
                   metricspb.Value := metricspb.DoubleValue one |} ] |} ] |}.

(** A sink that refuses every batch. *)
Definition refusingSink : consumer_Metrics :=
  fun _ => Some (errOther "sink is down").

(** The known target after one good sample, with the refusing sink. *)
Definition scrapedRefused : @transaction collaborators :=
  finalState
    (newTransaction (H := collaborators) 3 background (Some 0%nat) false ""
       knownTarget refusingSink [])
    [up 4 one].

(** A new transaction whose external labels name the known target, and a
    sample that carries a metric name only. *)
Definition freshExternal : @transaction collaborators :=
  newTransaction (H := collaborators) 4 background (Some 0%nat) false ""
    knownTarget acceptingSink
    [lbl InstanceLabel "localhost:9100"; lbl JobLabel "node"].

Definition bare (t : Z) : sample :=
  {| sLabels := [lbl MetricNameLabel "up"]; sT := t; sV := one |}.

(** A batch without stale marker: an ordinary NaN, 1.0 and an integer. *)
Definition liveBatch : pdata.Metrics :=
  [ {| pdata.ResourceAttributes := [];
       pdata.InstrumentationLibraryMetrics_ :=
         [ {| pdata.LibraryName := ""; pdata.LibraryVersion := "";
              pdata.Metrics_ :=
                [ metricOf "g" (pdata.DataGauge
                    [ numberPoint (pdata.ValDouble value.NormalNaN);
                      numberPoint (pdata.ValDouble one);
                      numberPoint (pdata.ValInt 3) ]);
                  metricOf "h" (pdata.DataHistogram pdata.TemporalityCumulative
                    [ histogramPoint one ]);
                  metricOf "s" (pdata.DataSummary
                    [ summaryPoint value.NormalNaN ]) ] |} ] |} ].



End Demo.

(** * Properties *)

Section ReceiverFacts.

Context `{Collaborators}.

Implicit Types (tr : transaction) (ls : labels.Labels) (t : Z) (v : float64).

(** ** Append and the context *)

Lemma set_startTimeMs_same tr : set_startTimeMs (startTimeMs tr) tr = tr.
Proof. destruct tr; reflexivity. Qed.

(** C1 (as amended): on a cancelled context [Append] answers the aborted
    error without calling any collaborator, and leaves every field of
    the transaction as it was except the start-time tracking, which has
    already been set to the sample's timestamp when it was unset
    (negative); a transaction whose tracking is set is left unchanged. *)
Theorem Append_cancelled tr (ref : SeriesRef) ls t v :
  Done (ctx tr) = true ->
  result (Append tr ref ls t v) = Returned (0, Some errTransactionAborted)
  /\ trace (Append tr ref ls t v) = []
  /\ state (Append tr ref ls t v)
     = set_startTimeMs (if startTimeMs tr <? 0 then t else startTimeMs tr) tr
  /\ (0 <= startTimeMs tr -> state (Append tr ref ls t v) = tr).
Proof.
  intros Hdone. unfold Append, trackStartTime.
  destruct (startTimeMs tr <? 0) eqn:Hneg; cbn [ctx set_startTimeMs];
    rewrite Hdone; cbn.
  - repeat split; intros Hpos. apply Z.ltb_lt in Hneg. lia.
  - rewrite set_startTimeMs_same. repeat split.
Qed.

(** ** Commit *)

(** C5: [Commit] on a transaction that is still new returns nil, calls
    neither the builder, the adjustment, the translator nor the sink, and
    leaves the transaction as it is. *)
Theorem Commit_new_is_noop tr :
  isNew tr = true ->
  result (Commit tr) = Returned None
  /\ trace (Commit tr) = []
  /\ state (Commit tr) = tr.
Proof. intros Hnew. unfold Commit. rewrite Hnew. repeat split. Qed.

(** C2 (as amended): when the builder of an initialized transaction
    answers [Build] with no-data-to-build, [Commit] reports 0 points
    together with that error to the obsreport receiver, calls neither
    the translator nor the sink, and returns the error to its caller. *)
Theorem Commit_no_data tr (b b' : metricBuilder) (metrics : list metricspb.Metric) :
  isNew tr = false ->
  metricBuilder_ tr = Some b ->
  Build b = (b', metrics, Some errNoDataToBuild) ->
  result (Commit tr) = Returned (Some errNoDataToBuild)
  /\ trace (Commit tr)
     = [EvStartMetricsOp; EvBuild;
        EvEndMetricsOp dataformat 0 (Some errNoDataToBuild)]
  /\ state (Commit tr) = set_metricBuilder (Some b') (set_startTimeMs (-1) tr).
Proof.
  intros Hnew Hb Hbuild. unfold Commit. rewrite Hnew.
  cbn [metricBuilder_ set_startTimeMs]. rewrite Hb, Hbuild.
  repeat split.
Qed.

(** C3: in start-time-metric mode, when the batch [Build] returned comes
    with a start time equal to zero, [Commit] returns the
    missing-start-time error, reports 0 points, and the sink is not
    called: the trace ends after the report and holds no
    [EvConsumeMetrics]. *)
Theorem Commit_missing_start_time tr (b b' : metricBuilder)
    (metrics : list metricspb.Metric) :
  isNew tr = false ->
  useStartTimeMetric tr = true ->
  metricBuilder_ tr = Some b ->
  Build b = (b', metrics, None) ->
  is_zero (startTime b') = true ->
  result (Commit tr) = Returned (Some errNoStartTimeMetrics)
  /\ trace (Commit tr)
     = [EvStartMetricsOp; EvBuild;
        EvEndMetricsOp dataformat 0 (Some errNoStartTimeMetrics)]
  /\ existsb isConsumeMetrics (trace (Commit tr)) = false.
Proof.
  intros Hnew Hmode Hb Hbuild Hzero. unfold Commit. rewrite Hnew.
  cbn [metricBuilder_ set_startTimeMs]. rewrite Hb, Hbuild.
  cbn -[is_zero]. rewrite Hmode, Hzero.
  repeat split.
Qed.

(** In start-time-metric mode a start time of zero keeps the sink from
    being called whatever else happens: on a new transaction, when [Build]
    fails, and when it succeeds. *)
Lemma Commit_zero_start_time_never_consumes tr :
  useStartTimeMetric tr = true ->
  (forall b, metricBuilder_ tr = Some b ->
             is_zero (startTime (fst (fst (Build b)))) = true) ->
  existsb isConsumeMetrics (trace (Commit tr)) = false.
Proof.
  intros Hmode Hzero. unfold Commit.
  destruct (isNew tr); [reflexivity|]. cbn [metricBuilder_ set_startTimeMs].
  destruct (metricBuilder_ tr) as [b|]; [|reflexivity].
  specialize (Hzero b eq_refl).
  destruct (Build b) as [[b' metrics] [e|]]; cbn -[is_zero] in *;
    [reflexivity|].
  rewrite Hmode, Hzero. reflexivity.
Qed.

(** ** Exemplars *)

(** C10: [AppendExemplar] returns reference 0 and a nil error for every
    input, calls no collaborator (the builder in particular) and returns
    the transaction unchanged, so that a later [Commit] is the one of the
    transaction without the exemplar. *)
Theorem AppendExemplar_discards tr (ref : SeriesRef) ls (e : Exemplar) :
  result (AppendExemplar tr ref ls e) = Returned (0, None)
  /\ trace (AppendExemplar tr ref ls e) = []
  /\ state (AppendExemplar tr ref ls e) = tr
  /\ Commit (state (AppendExemplar tr ref ls e)) = Commit tr.
Proof. repeat split. Qed.

(** ** The order of the passes in Commit *)

Ltac commit_cases tr :=
  unfold Commit, convertAndForward, adjustAndForward, forward;
  destruct (isNew tr); cbn -[is_zero]; try discriminate;
  destruct (metricBuilder_ tr) as [b|]; cbn -[is_zero]; try discriminate;
  destruct (Build b) as [[b' metrics] [e|]]; cbn -[is_zero]; try discriminate.

(** C4 (as amended): when [Commit] forwards a batch to the sink, the
    staleness pass has run before the sink is called; in
    start-time-metric mode it runs after the start-time stamping and the
    JobsMap adjuster is not called; in JobsMap mode it runs before the
    JobsMap adjuster, which in turn runs before the sink is called, and
    no adjustment step precedes the staleness pass. *)
Theorem Commit_order_of_passes tr :
  existsb isConsumeMetrics (trace (Commit tr)) = true ->
  occursBefore isFixStaleMetrics isConsumeMetrics (trace (Commit tr)) = true
  /\ (useStartTimeMetric tr = true ->
      occursBefore isAdjustStartTimestamp isFixStaleMetrics
        (trace (Commit tr)) = true
      /\ existsb isAdjustMetrics (trace (Commit tr)) = false)
  /\ (useStartTimeMetric tr = false ->
      occursBefore isFixStaleMetrics isAdjustMetrics (trace (Commit tr)) = true
      /\ occursBefore isAdjustMetrics isConsumeMetrics (trace (Commit tr)) = true
      /\ occursBefore isAdjustment isFixStaleMetrics (trace (Commit tr)) = false).
Proof.
  commit_cases tr.
  destruct (useStartTimeMetric tr) eqn:Hmode; cbn -[is_zero].
  - destruct (is_zero (startTime b')); cbn; try discriminate.
    destruct (0 <? Z.of_nat (length (adjustStartTimestamp _ metrics)));
      cbn; try discriminate.
    destruct (0 <? pdata.DataPointCount _); cbn; try discriminate.
    intros _. repeat split; discriminate.
  - destruct (0 <? Z.of_nat (length metrics)); cbn; rewrite ?Hmode; cbn.
    + destruct (jobsMap tr) as [jm|]; cbn; try discriminate.
      destruct (0 <? pdata.DataPointCount _); cbn; try discriminate.
      intros _. repeat split; discriminate.
    + destruct (jobsMap tr) as [jm|]; cbn; discriminate.
Qed.

(** X14: in JobsMap mode the batch handed to the sink is the translated
    batch, passed through the staleness pass and then through the
    adjuster. *)
Lemma Commit_jobsMap_dataflow tr (b b' : metricBuilder) (jm : JobsMapPdata)
    (metrics : list metricspb.Metric) :
  isNew tr = false ->
  useStartTimeMetric tr = false ->
  metricBuilder_ tr = Some b ->
  jobsMap tr = Some jm ->
  Build b = (b', metrics, None) ->
  existsb isConsumeMetrics (trace (Commit tr)) = true ->
  List.filter isConsumeMetrics (trace (Commit tr))
  = [EvConsumeMetrics
       (snd (AdjustMetrics jm (job tr) (instance tr)
               (fixStaleMetrics (OCToMetrics (node tr) (resource tr) metrics))))].
Proof.
  intros Hnew Hmode Hb Hjm Hbuild.
  unfold Commit, convertAndForward, adjustAndForward, forward.
  rewrite Hnew. cbn. rewrite Hb, Hbuild. cbn. rewrite Hmode. cbn.
  destruct (0 <? Z.of_nat (length metrics)); cbn; rewrite ?Hmode, ?Hjm; cbn.
  - destruct (0 <? pdata.DataPointCount _); cbn; [reflexivity|discriminate].
  - discriminate.
Qed.

(** ** The staleness pass *)

Lemma lookup_map {A B} (f : A -> B) (l : list A) (i : nat) :
  map f l !! i = f <$> (l !! i).
Proof. exact (list_lookup_fmap f l i). Qed.

Lemma fixStaleNumberPoint_fixed dp :
  staleFixed pdataStaleFlags (NumberPoint dp) (NumberPoint (fixStaleNumberPoint dp)).
Proof.
  unfold fixStaleNumberPoint, value.IsStaleNaN. cbn.
  destruct (Z.eqb_spec (pdata.DoubleVal dp) value.StaleNaN); cbn; split;
    intros; try contradiction; repeat split.
Qed.

Lemma fixStaleHistogramPoint_fixed dp :
  staleFixed pdataStaleFlags (HistogramPoint dp)
    (HistogramPoint (fixStaleHistogramPoint dp)).
Proof.
  unfold fixStaleHistogramPoint, value.IsStaleNaN. cbn.
  destruct (Z.eqb_spec (pdata.hSum dp) value.StaleNaN); cbn; split;
    intros; try contradiction; repeat split.
Qed.

Lemma fixStaleSummaryPoint_fixed dp :
  staleFixed pdataStaleFlags (SummaryPoint dp)
    (SummaryPoint (fixStaleSummaryPoint dp)).
Proof.
  unfold fixStaleSummaryPoint, value.IsStaleNaN. cbn.
  destruct (Z.eqb_spec (pdata.sSum dp) value.StaleNaN); cbn; split;
    intros; try contradiction; repeat split.
  unfold pdata.RemoveIf. induction (pdata.sQuantileValues dp); cbn; auto.
Qed.

Lemma fixStaleData_points (d : pdata.MetricData) (l : nat) :
  option_Forall2 (staleFixed pdataStaleFlags)
    (dataPoints d !! l) (dataPoints (fixStaleData d) !! l).
Proof.
  destruct d as [|dps|a m dps|a dps|a dps|dps]; cbn;
    unfold fixStaleGauge, fixStaleSum, fixStaleHistogram, fixStaleSummary;
    rewrite ?lookup_map; try destruct (dps !! l) as [dp|]; cbn;
    constructor.
  - apply fixStaleNumberPoint_fixed.
  - apply fixStaleNumberPoint_fixed.
  - apply fixStaleHistogramPoint_fixed.
  - reflexivity.
  - apply fixStaleSummaryPoint_fixed.
Qed.

(** C6: at every position of a batch, the staleness pass leaves a data
    point where there was one and none where there was none; a gauge or
    sum point whose double value is the stale marker, and a histogram or
    summary point whose sum is, comes out with the stale flags set and
    its value, or count, sum, bucket counts, bounds and quantile values,
    zeroed or emptied; every other point (an ordinary NaN, any other
    value, an integer, a point of another data type) comes out as it
    went in. *)
Theorem fixStaleMetrics_points (md : pdata.Metrics) (i j k l : nat) :
  option_Forall2 (staleFixed pdataStaleFlags)
    (pointAt md i j k l) (pointAt (fixStaleMetrics md) i j k l).
Proof.
  unfold pointAt, metricAt, fixStaleMetrics.
  rewrite lookup_map. destruct (md !! i) as [rm|]; cbn; [|constructor].
  rewrite lookup_map.
  destruct (pdata.InstrumentationLibraryMetrics_ rm !! j) as [ilm|]; cbn;
    [|constructor].
  rewrite lookup_map.
  destruct (pdata.Metrics_ ilm !! k) as [m|]; cbn; [|constructor].
  apply fixStaleData_points.
Qed.

Lemma sumZ_map_map {A} (f : A -> Z) (g : A -> A) (l : list A) :
  (forall x, f (g x) = f x) ->
  pdata.sumZ (map f (map g l)) = pdata.sumZ (map f l).
Proof.
  intros Hfg. induction l as [|x l IH]; cbn; [reflexivity|].
  rewrite Hfg. unfold pdata.sumZ in IH. rewrite IH. reflexivity.
Qed.

(** The pass neither adds nor removes data points. *)
Lemma fixStaleMetrics_DataPointCount (md : pdata.Metrics) :
  pdata.DataPointCount (fixStaleMetrics md) = pdata.DataPointCount md.
Proof.
  unfold pdata.DataPointCount, fixStaleMetrics.
  apply sumZ_map_map. intros rm. cbn.
  apply sumZ_map_map. intros ilm. cbn.
  apply sumZ_map_map. intros m.
  unfold pdata.metricPointCount. cbn. destruct (pdata.Data m); cbn;
    unfold fixStaleGauge, fixStaleSum, fixStaleHistogram, fixStaleSummary;
    rewrite ?length_map; reflexivity.
Qed.

(** ** The binding of the transaction *)

Lemma trackStartTime_eq t tr :
  trackStartTime t tr
  = set_startTimeMs (if startTimeMs tr <? 0 then t else startTimeMs tr) tr.
Proof.
  unfold trackStartTime. destruct (startTimeMs tr <? 0); [reflexivity|].
  symmetry. apply set_startTimeMs_same.
Qed.

(** Once initialized, a transaction stays so: [Append] neither looks the
    target up again nor touches the bound identity. *)
Lemma Append_initialized tr (ref : SeriesRef) ls t v :
  isNew tr = false ->
  isNew (state (Append tr ref ls t v)) = false
  /\ boundIdentity (state (Append tr ref ls t v)) = boundIdentity tr
  /\ existsb isMsGet (trace (Append tr ref ls t v)) = false.
Proof.
  intros Hnew. unfold Append. rewrite trackStartTime_eq.
  cbn [ctx isNew externalLabels set_startTimeMs].
  destruct (Done (ctx tr)); cbn; [auto|].
  rewrite Hnew. unfold addToBuilder. cbn.
  destruct (metricBuilder_ tr); cbn; auto.
Qed.

Lemma appendAll_initialized tr (ss : list sample) :
  isNew tr = false ->
  Forall (fun r => isNew (state r) = false
                   /\ boundIdentity (state r) = boundIdentity tr
                   /\ existsb isMsGet (trace r) = false)
    (appendAll tr ss).
Proof.
  revert tr. induction ss as [|s ss IH]; intros tr Hnew; cbn; constructor.
  - apply Append_initialized, Hnew.
  - destruct (Append_initialized tr 0 (sLabels s) (sT s) (sV s) Hnew)
      as (Hnew' & Hid & _).
    unfold appendSample. rewrite <- Hid. apply IH, Hnew'.
Qed.

Lemma finalState_app tr (ss1 ss2 : list sample) :
  finalState tr (ss1 ++ ss2) = finalState (finalState tr ss1) ss2.
Proof. unfold finalState. apply fold_left_app. Qed.

Lemma finalState_cons tr (s : sample) (ss : list sample) :
  finalState tr (s :: ss) = finalState (state (appendSample tr s)) ss.
Proof. reflexivity. Qed.

Lemma finalState_initialized tr (ss : list sample) :
  isNew tr = false -> isNew (finalState tr ss) = false.
Proof.
  revert tr. induction ss as [|s ss IH]; intros tr Hnew; cbn; [exact Hnew|].
  apply IH. apply Append_initialized, Hnew.
Qed.

(** The runs of a scrape split where the scrape does. *)
Lemma appendAll_app tr (ss1 ss2 : list sample) :
  appendAll tr (ss1 ++ ss2)
  = (appendAll tr ss1 ++ appendAll (finalState tr ss1) ss2)%list.
Proof.
  revert tr. induction ss1 as [|s ss1 IH]; intros tr; cbn; [reflexivity|].
  f_equal. apply IH.
Qed.

(** The call that initializes the transaction looks the target up once,
    with success. *)
Lemma Append_transition tr (ref : SeriesRef) ls t v :
  isNew tr = true ->
  isNew (state (Append tr ref ls t v)) = false ->
  exists (j i : string) (mc : MetadataCache),
    ms tr j i = inl mc
    /\ List.filter isMsGet (trace (Append tr ref ls t v)) = [EvMsGet j i].
Proof.
  intros Hnew. unfold Append. rewrite trackStartTime_eq.
  cbn [ctx isNew externalLabels set_startTimeMs].
  destruct (Done (ctx tr)); cbn; [congruence|].
  rewrite Hnew. unfold initTransaction.
  cbn [ms jobsMap set_startTimeMs].
  match goal with |- context [if ?c then _ else _] => destruct c end;
    cbn; [congruence|].
  match goal with |- context [ms tr ?j ?i] =>
    destruct (ms tr j i) as [mc|err] eqn:Hms; cbn; [|congruence];
    intros _; exists j, i, mc; split; [exact Hms|]
  end.
  destruct (jobsMap tr); reflexivity.
Qed.

(** C8 (as amended): in a scrape [pre ++ s :: post] whose call for [s]
    takes the transaction from new to initialized, every call before
    left it new; the call for [s] looked the target up exactly once, with
    success (whether or not the builder then accepted the sample); and
    each later call finds the transaction initialized, performs no
    lookup and leaves the bound job, instance, node and resource as the
    call for [s] left them.  A call made while the transaction is still
    new may perform a lookup that fails. *)
Theorem Append_binds_identity_once tr (pre post : list sample) (s : sample) :
  isNew (finalState tr pre) = true ->
  isNew (finalState tr (pre ++ [s])) = false ->
  (forall k : nat, isNew (finalState tr (take k pre)) = true)
  /\ (exists (j i : string) (mc : MetadataCache),
        ms (finalState tr pre) j i = inl mc
        /\ List.filter isMsGet (trace (appendSample (finalState tr pre) s))
           = [EvMsGet j i])
  /\ Forall (fun r => isNew (state r) = false
                      /\ boundIdentity (state r)
                         = boundIdentity (finalState tr (pre ++ [s]))
                      /\ existsb isMsGet (trace r) = false)
       (appendAll (finalState tr (pre ++ [s])) post).
Proof.
  intros Hpre Hs. split; [|split].
  - intros k. destruct (isNew (finalState tr (take k pre))) eqn:Hk;
      [reflexivity|].
    rewrite <- (take_drop k pre), finalState_app in Hpre.
    rewrite (finalState_initialized _ _ Hk) in Hpre. discriminate.
  - rewrite finalState_app in Hs. cbn in Hs.
    apply (Append_transition _ 0 _ _ _ Hpre Hs).
  - apply appendAll_initialized, Hs.
Qed.

(** ** The start-time tracking *)

Lemma Append_startTimeMs tr (ref : SeriesRef) ls t v :
  startTimeMs (state (Append tr ref ls t v))
  = if startTimeMs tr <? 0 then t else startTimeMs tr.
Proof.
  unfold Append. rewrite trackStartTime_eq.
  cbn [ctx isNew externalLabels set_startTimeMs].
  destruct (Done (ctx tr)); cbn; [reflexivity|].
  destruct (isNew tr).
  - unfold initTransaction. cbn [ms jobsMap set_startTimeMs].
    match goal with |- context [if ?c then _ else _] => destruct c end;
      cbn; [reflexivity|].
    match goal with |- context [ms tr ?j ?i] =>
      destruct (ms tr j i) as [mc|err]; cbn; [|reflexivity]
    end.
    destruct (jobsMap tr); reflexivity.
  - unfold addToBuilder. cbn. destruct (metricBuilder_ tr); reflexivity.
Qed.

Lemma finalState_startTimeMs_set tr (ss : list sample) :
  0 <= startTimeMs tr -> startTimeMs (finalState tr ss) = startTimeMs tr.
Proof.
  revert tr. induction ss as [|s ss IH]; intros tr Hset; cbn; [reflexivity|].
  assert (Hstep : startTimeMs (state (appendSample tr s)) = startTimeMs tr).
  { unfold appendSample. rewrite Append_startTimeMs.
    destruct (Z.ltb_spec (startTimeMs tr) 0); [lia|reflexivity]. }
  rewrite <- Hstep. apply IH. rewrite Hstep. exact Hset.
Qed.

Lemma finalState_startTimeMs_unset tr (ss : list sample) :
  startTimeMs tr < 0 -> Forall (fun x => sT x < 0) ss ->
  startTimeMs (finalState tr ss) < 0.
Proof.
  revert tr. induction ss as [|s ss IH]; intros tr Hneg Hall; cbn;
    [exact Hneg|].
  inversion Hall as [|? ? Hs Hss]; subst. apply IH; [|exact Hss].
  unfold appendSample. rewrite Append_startTimeMs.
  destruct (Z.ltb_spec (startTimeMs tr) 0); lia.
Qed.

(** C9 (as amended): across the [Append] calls of a transaction whose
    tracking is unset, the start-time tracking ends up holding the
    timestamp of the first call whose timestamp is not negative, that
    is the timestamp of the first call for ordinary timestamps; later
    calls do not change it, whether their timestamps are smaller or
    not. *)
Theorem Append_tracks_first_timestamp tr (pre post : list sample) (s : sample) :
  startTimeMs tr < 0 ->
  Forall (fun x => sT x < 0) pre ->
  0 <= sT s ->
  startTimeMs (finalState tr (pre ++ s :: post)) = sT s.
Proof.
  intros Hunset Hpre Hs.
  rewrite finalState_app, finalState_cons.
  pose proof (finalState_startTimeMs_unset tr pre Hunset Hpre) as Hneg.
  assert (Hstep : startTimeMs (state (appendSample (finalState tr pre) s)) = sT s).
  { unfold appendSample. rewrite Append_startTimeMs.
    destruct (Z.ltb_spec (startTimeMs (finalState tr pre)) 0); [reflexivity|lia]. }
  rewrite finalState_startTimeMs_set; [exact Hstep|]. rewrite Hstep. exact Hs.
Qed.

End ReceiverFacts.

(** ** The start-time stamping *)

(** Whatever the float, the seconds fit an [int64] and the nanoseconds an
    [int32]. *)
Lemma to_int64_range (f : spec_float) :
  min_int64 <= to_int64 f <= max_int64.
Proof.
  unfold to_int64, min_int64, max_int64.
  destruct f as [s|s| |s m e]; try lia.
  match goal with |- context [if ?c then _ else _] =>
    destruct c eqn:Hc end; [|lia].
  apply andb_prop in Hc as [Hlo Hhi].
  apply Z.leb_le in Hlo, Hhi. unfold min_int64, max_int64 in *. lia.
Qed.

Lemma timestampFromFloat64_range (ts : float64) :
  min_int64 <= timestamppb.Seconds (timestampFromFloat64 ts) <= max_int64
  /\ - 2 ^ 31 <= timestamppb.Nanos (timestampFromFloat64 ts) < 2 ^ 31.
Proof.
  split; [apply to_int64_range|].
  cbn [timestampFromFloat64 timestamppb.Nanos]. unfold int32_of_int64.
  match goal with |- context [?n mod 2 ^ 32] =>
    pose proof (Z.mod_pos_bound n (2 ^ 32) ltac:(lia)) end.
  lia.
Qed.

(** *** The arithmetic of the conversion

    A finite float is [m * 2^e] with a sign.  The lemmas below follow the
    four float operations of [timestampFromFloat64] on such a value:
    the truncation to an integer, the integer taken back to a float, the
    subtraction and the product with 1e9. *)

Section FloatFacts.

Local Open Scope Z_scope.

Lemma fexp_eq (z : Z) : fexp prec emax z = Z.max (z - 53) (-1074).
Proof. reflexivity. Qed.

Lemma digits2_pos_size (p : positive) : digits2_pos p = Pos.size p.
Proof. induction p as [p IH|p IH|]; cbn; rewrite ?IH; reflexivity. Qed.

(** The number of binary digits of [p]. *)
Lemma digits_bounds (p : positive) :
  2 ^ (Z.pos (digits2_pos p) - 1) <= Z.pos p < 2 ^ Z.pos (digits2_pos p).
Proof.
  rewrite digits2_pos_size. split.
  - pose proof (Pos.size_le p) as Hle.
    apply Pos2Z.pos_le_pos in Hle. rewrite Pos2Z.inj_pow in Hle.
    replace (Z.pos (Pos.size p)) with (Z.succ (Z.pos (Pos.size p) - 1)) in Hle
      by lia.
    rewrite Z.pow_succ_r in Hle by lia.
    change (Z.pos p~0) with (2 * Z.pos p) in Hle. lia.
  - pose proof (Pos.size_gt p) as Hgt.
    apply Pos2Z.pos_lt_pos in Hgt. rewrite Pos2Z.inj_pow in Hgt. exact Hgt.
Qed.

Lemma digits_unique (p : positive) (d : Z) :
  2 ^ (d - 1) <= Z.pos p < 2 ^ d -> Z.pos (digits2_pos p) = d.
Proof.
  intros [Hlo Hhi]. pose proof (digits_bounds p) as [Hlo' Hhi'].
  assert (0 < d).
  { destruct (Z.ltb_spec 0 d) as [|Hd]; [assumption|].
    assert (2 ^ d <= 2 ^ 0) by (apply Z.pow_le_mono_r; lia). simpl in *. lia. }
  assert (d - 1 < Z.pos (digits2_pos p)).
  { apply (Z.pow_lt_mono_r_iff 2); lia. }
  assert (Z.pos (digits2_pos p) - 1 < d).
  { apply (Z.pow_lt_mono_r_iff 2); lia. }
  lia.
Qed.

Lemma digits_le (p : positive) (d : Z) :
  0 <= d -> Z.pos p < 2 ^ d -> Z.pos (digits2_pos p) <= d.
Proof.
  intros Hd Hhi. pose proof (digits_bounds p) as [Hlo' _].
  assert (Z.pos (digits2_pos p) - 1 < d).
  { apply (Z.pow_lt_mono_r_iff 2); lia. }
  lia.
Qed.

(** One step of the right shift halves the mantissa. *)
Lemma shr_1_m (mrs : shr_record) :
  0 <= shr_m mrs ->
  shr_m (shr_1 mrs) = shr_m mrs / 2 /\ 0 <= shr_m (shr_1 mrs).
Proof.
  destruct mrs as [m r s]. cbn [shr_m]. intros Hm.
  rewrite <- Z.div2_div.
  destruct m as [|[p|p|]|p]; cbn; split; try reflexivity; lia.
Qed.

Lemma iter_shr_1_m (n : positive) (mrs : shr_record) :
  0 <= shr_m mrs ->
  shr_m (SpecFloat.iter_pos shr_1 n mrs) = shr_m mrs / 2 ^ Z.pos n
  /\ 0 <= shr_m (SpecFloat.iter_pos shr_1 n mrs).
Proof.
  revert mrs. induction n as [n IH|n IH|]; intros mrs Hm; cbn [SpecFloat.iter_pos].
  - destruct (shr_1_m mrs Hm) as [H1 H1'].
    destruct (IH _ H1') as [H2 H2']. destruct (IH _ H2') as [H3 H3'].
    split; [|exact H3'].
    rewrite H3, H2, H1, !Z.div_div by lia. f_equal.
    replace (Z.pos n~1) with (1 + Z.pos n + Z.pos n) by lia.
    rewrite !Z.pow_add_r by lia. change (2 ^ 1) with 2. ring.
  - destruct (IH _ Hm) as [H2 H2']. destruct (IH _ H2') as [H3 H3'].
    split; [|exact H3'].
    rewrite H3, H2, !Z.div_div by lia. f_equal.
    replace (Z.pos n~0) with (Z.pos n + Z.pos n) by lia.
    rewrite !Z.pow_add_r by lia. ring.
  - destruct (shr_1_m mrs Hm) as [H1 H1']. split; [|exact H1'].
    rewrite H1. reflexivity.
Qed.

(** What [shr] leaves of a mantissa that is not negative. *)
Lemma shr_m_spec (mrs : shr_record) (e n : Z) :
  0 <= shr_m mrs ->
  shr_m (fst (shr mrs e n)) = shr_m mrs / 2 ^ Z.max 0 n
  /\ snd (shr mrs e n) = e + Z.max 0 n.
Proof.
  intros Hm. unfold shr. destruct n as [|n|n]; cbn [fst snd].
  - rewrite Z.div_1_r. split; [reflexivity|lia].
  - destruct (iter_shr_1_m n mrs Hm) as [H1 _].
    rewrite H1. replace (Z.max 0 (Z.pos n)) with (Z.pos n) by lia.
    split; reflexivity.
  - replace (Z.max 0 (Z.neg n)) with 0 by lia.
    rewrite Z.div_1_r. split; [reflexivity|lia].
Qed.

Lemma round_nearest_even_bounds (q : Z) (l : location) :
  q <= round_nearest_even q l <= q + 1.
Proof.
  unfold round_nearest_even. destruct l as [|[]]; try destruct (Z.even q); lia.
Qed.

Lemma iter_xO (p d : positive) :
  Z.pos (Pos.iter xO p d) = Z.pos p * 2 ^ Z.pos d.
Proof.
  revert p. induction d as [|d IH] using Pos.peano_ind; intros p.
  - cbn. lia.
  - rewrite Pos.iter_succ.
    change (Z.pos (Pos.iter xO p d)~0) with (2 * Z.pos (Pos.iter xO p d)).
    rewrite IH, Pos2Z.inj_succ, Z.pow_succ_r by lia. ring.
Qed.


(** A mantissa of 53 digits with an exponent in range is a float as it
    stands. *)
Lemma binary_round_aux_exact (sx : bool) (mz : positive) (e1 : Z) :
  Z.pos (digits2_pos mz) = 53 ->
  -1074 <= e1 <= 971 ->
  binary_round_aux prec emax sx (Z.pos mz) e1 loc_Exact = S754_finite sx mz e1.
Proof.
  intros Hd He. unfold binary_round_aux.
  assert (Hshr : forall l, l = loc_Exact ->
            shr_fexp prec emax (Z.pos mz) e1 l
            = ({| shr_m := Z.pos mz; shr_r := false; shr_s := false |}, e1)).
  { intros l ->. unfold shr_fexp. cbn [Zdigits2]. rewrite Hd, fexp_eq.
    replace (Z.max (53 + e1 - 53) (-1074) - e1) with 0 by lia. reflexivity. }
  rewrite (Hshr loc_Exact eq_refl).
  cbn [shr_m loc_of_shr_record round_nearest_even].
  rewrite (Hshr loc_Exact eq_refl). cbn [shr_m].
  replace (e1 <=? emax - prec) with true; [reflexivity|].
  symmetry. apply Z.leb_le. unfold emax, prec. lia.
Qed.

(** A mantissa of at most 53 digits is normalized without loss. *)
Lemma binary_round_exact (sx : bool) (p : positive) (ex : Z) :
  Z.pos (digits2_pos p) <= 53 ->
  -1074 <= Z.pos (digits2_pos p) + ex - 53 <= 971 ->
  exists p' : positive,
    Z.pos p' = Z.pos p * 2 ^ (53 - Z.pos (digits2_pos p))
    /\ Z.pos (digits2_pos p') = 53
    /\ binary_round prec emax sx p ex
       = S754_finite sx p' (Z.pos (digits2_pos p) + ex - 53).
Proof.
  intros Hd He. unfold binary_round. rewrite fexp_eq.
  replace (Z.max (Z.pos (digits2_pos p) + ex - 53) (-1074))
    with (Z.pos (digits2_pos p) + ex - 53) by lia.
  unfold shl_align.
  replace (Z.pos (digits2_pos p) + ex - 53 - ex)
    with (Z.pos (digits2_pos p) - 53) by lia.
  pose proof (digits_bounds p) as [Hlo Hhi].
  destruct (Z.pos (digits2_pos p) - 53) as [|d|d] eqn:Hsh; [| lia |].
  - exists p. replace (53 - Z.pos (digits2_pos p)) with 0 by lia.
    split; [lia|]. split; [lia|].
    replace (Z.pos (digits2_pos p) + ex - 53) with ex by lia.
    apply binary_round_aux_exact; lia.
  - exists (Pos.iter xO p d).
    assert (Hd' : 53 - Z.pos (digits2_pos p) = Z.pos d) by lia.
    rewrite Hd'. split; [apply iter_xO|].
    assert (Hdig : Z.pos (digits2_pos (Pos.iter xO p d)) = 53).
    { apply digits_unique. rewrite iter_xO. split.
      - replace (2 ^ (53 - 1))
          with (2 ^ (Z.pos (digits2_pos p) - 1 + Z.pos d)) by (f_equal; lia).
        rewrite Z.pow_add_r by lia. apply Z.mul_le_mono_nonneg_r; lia.
      - replace (2 ^ 53)
          with (2 ^ (Z.pos (digits2_pos p) + Z.pos d)) by (f_equal; lia).
        rewrite Z.pow_add_r by lia. apply Z.mul_lt_mono_pos_r; lia. }
    split; [exact Hdig|].
    apply binary_round_aux_exact; [exact Hdig|lia].
Qed.


Lemma shr_fexp_spec (m : positive) (e : Z) (l : location) :
  shr_m (fst (shr_fexp prec emax (Z.pos m) e l))
  = Z.pos m / 2 ^ Z.max 0 (Z.max (Z.pos (digits2_pos m) + e - 53) (-1074) - e)
  /\ snd (shr_fexp prec emax (Z.pos m) e l)
     = e + Z.max 0 (Z.max (Z.pos (digits2_pos m) + e - 53) (-1074) - e).
Proof.
  unfold shr_fexp. cbn [Zdigits2]. rewrite fexp_eq.
  assert (Hm : shr_m (shr_record_of_loc (Z.pos m) l) = Z.pos m)
    by (destruct l as [|[]]; reflexivity).
  rewrite <- Hm at 2. apply shr_m_spec. rewrite Hm. lia.
Qed.

(** The integer part of a rounded product: the mantissa [M] of more than
    53 digits is cut to 53 digits, [q'] being the cut mantissa or its
    successor, and the integer part of the float is the integer part of
    [q'] scaled by the exponent. *)
Lemma round_then_truncate (sx : bool) (M : positive) (E : Z) :
  54 <= Z.pos (digits2_pos M) ->
  -1074 <= Z.pos (digits2_pos M) + E - 53 <= -2 ->
  exists q' : Z,
    Z.pos M / 2 ^ (Z.pos (digits2_pos M) - 53) <= q'
      <= Z.pos M / 2 ^ (Z.pos (digits2_pos M) - 53) + 1
    /\ (q' / 2 ^ (53 - Z.pos (digits2_pos M) - E) <= max_int64 ->
        to_int64 (binary_round_aux prec emax sx (Z.pos M) E loc_Exact)
        = cond_Zopp sx (q' / 2 ^ (53 - Z.pos (digits2_pos M) - E))).
Proof.
  intros Hd He. set (d := Z.pos (digits2_pos M)) in *.
  pose proof (digits_bounds M) as [Hlo Hhi]. fold d in Hlo, Hhi.
  set (q := Z.pos M / 2 ^ (d - 53)).
  assert (Hpow : 0 < 2 ^ (d - 53)) by (apply Z.pow_pos_nonneg; lia).
  assert (Hq : 2 ^ 52 <= q < 2 ^ 53).
  { split.
    - apply Z.div_le_lower_bound; [exact Hpow|].
      rewrite <- Z.pow_add_r by lia.
      replace (d - 53 + 52) with (d - 1) by lia. exact Hlo.
    - apply Z.div_lt_upper_bound; [exact Hpow|].
      rewrite <- Z.pow_add_r by lia.
      replace (d - 53 + 53) with d by lia. exact Hhi. }
  unfold binary_round_aux.
  (* the first shift *)
  destruct (shr_fexp_spec M E loc_Exact) as [Hm1 He1]. fold d in Hm1, He1.
  destruct (shr_fexp prec emax (Z.pos M) E loc_Exact) as [mrs1 e1].
  cbn [fst snd] in Hm1, He1.
  replace (Z.max 0 (Z.max (d + E - 53) (-1074) - E)) with (d - 53)
    in Hm1, He1 by lia.
  fold q in Hm1.
  (* the rounding *)
  pose proof (round_nearest_even_bounds (shr_m mrs1) (loc_of_shr_record mrs1))
    as Hq'.
  set (q' := round_nearest_even (shr_m mrs1) (loc_of_shr_record mrs1)) in *.
  rewrite Hm1 in Hq'.
  exists q'. split; [exact Hq'|]. intros Hrange.
  (* the second shift *)
  assert (Hq'pos : exists pq, q' = Z.pos pq) by (destruct q'; [lia|eauto|lia]).
  destruct Hq'pos as [pq Hpq].
  rewrite Hpq.
  assert (Hdq : 53 <= Z.pos (digits2_pos pq) <= 54).
  { split.
    - pose proof (digits_bounds pq) as [_ Hhi'].
      destruct (Z.ltb_spec (Z.pos (digits2_pos pq)) 53) as [Hlt|]; [|lia].
      assert (2 ^ Z.pos (digits2_pos pq) <= 2 ^ 52)
        by (apply Z.pow_le_mono_r; lia). lia.
    - apply digits_le; [lia|]. rewrite <- Hpq.
      change (2 ^ 54) with (2 * 2 ^ 53). lia. }
  destruct (shr_fexp_spec pq e1 loc_Exact) as [Hm2 He2].
  destruct (shr_fexp prec emax (Z.pos pq) e1 loc_Exact) as [mrs2 e2].
  cbn [fst snd] in Hm2, He2.
  set (n2 := Z.max (Z.pos (digits2_pos pq) + e1 - 53) (-1074) - e1) in *.
  assert (Hn2 : 0 <= Z.max 0 n2 <= 1) by (unfold n2; lia).
  assert (Hm2pos : 2 ^ 51 <= shr_m mrs2).
  { rewrite Hm2, <- Hpq. apply Z.div_le_lower_bound.
    - apply Z.pow_pos_nonneg; lia.
    - assert (2 ^ Z.max 0 n2 <= 2 ^ 1) by (apply Z.pow_le_mono_r; lia).
      change (2 ^ 1) with 2 in *. change (2 ^ 52) with (2 * 2 ^ 51) in Hq.
      nia. }
  destruct (shr_m mrs2) as [|pm|pm] eqn:Hmrs2; [lia| |lia].
  replace (e2 <=? emax - prec) with true
    by (symmetry; apply Z.leb_le; unfold emax, prec; lia).
  unfold to_int64.
  replace (0 <=? e2) with false by (symmetry; apply Z.leb_gt; lia).
  rewrite Z.shiftr_div_pow2 by lia.
  assert (Hval : Z.pos pm / 2 ^ (- e2) = q' / 2 ^ (53 - d - E)).
  { rewrite Hm2, <- Hpq, Z.div_div
      by (first [apply Z.pow_nonzero; lia | apply Z.pow_pos_nonneg; lia]).
    rewrite <- Z.pow_add_r by lia. f_equal. f_equal. lia. }
  rewrite Hval.
  assert (0 <= q' / 2 ^ (53 - d - E)).
  { apply Z.div_pos; [lia|apply Z.pow_pos_nonneg; lia]. }
  unfold cond_Zopp. unfold max_int64, min_int64 in *. rewrite <- ?Hpq.
  destruct sx.
  - replace ((- 2 ^ 63 <=? - (q' / 2 ^ (53 - d - E)))
             && (- (q' / 2 ^ (53 - d - E)) <=? 2 ^ 63 - 1)) with true;
      [reflexivity|].
    symmetry. apply andb_true_intro. split; apply Z.leb_le; lia.
  - replace ((- 2 ^ 63 <=? q' / 2 ^ (53 - d - E))
             && (q' / 2 ^ (53 - d - E) <=? 2 ^ 63 - 1)) with true;
      [reflexivity|].
    symmetry. apply andb_true_intro. split; apply Z.leb_le; lia.
Qed.


(** The mantissa and exponent [decode] gives a finite float: a subnormal
    one has exponent -1074 and fewer than 53 digits, a normal one has 53
    digits. *)
Lemma decode_finite (b : float64) (s : bool) (m : positive) (e : Z) :
  decode b = S754_finite s m e ->
  (e = -1074 /\ Z.pos m < 2 ^ 52)
  \/ (-1074 <= e <= 971 /\ 2 ^ 52 <= Z.pos m < 2 ^ 53).
Proof.
  unfold decode.
  change 0xfffffffffffff with (Z.ones 52). change 0x7ff with (Z.ones 11).
  rewrite !Z.land_ones by lia.
  pose proof (Z.mod_pos_bound b (2 ^ 52) ltac:(lia)) as Hm0.
  pose proof (Z.mod_pos_bound (Z.shiftr b 52) (2 ^ 11) ltac:(lia)) as He0.
  set (m0 := b mod 2 ^ 52) in *. set (e0 := Z.shiftr b 52 mod 2 ^ 11) in *.
  destruct (Z.eqb_spec e0 (Z.ones 11)) as [|Hne1].
  { destruct (m0 =? 0); discriminate. }
  destruct (Z.eqb_spec e0 0) as [|Hne0].
  { destruct m0 as [|p|p] eqn:Hm; try discriminate.
    intros [= <- <- <-]. left. split; [reflexivity|lia]. }
  assert (Hlor : Z.lor m0 0x10000000000000 = m0 + 2 ^ 52).
  { change 0x10000000000000 with (2 ^ 52).
    assert (Hland : Z.land m0 (2 ^ 52) = 0).
    { apply Z.bits_inj'. intros n Hn.
      rewrite Z.land_spec, Z.bits_0, Z.pow2_bits_eqb by lia.
      destruct (Z.eqb_spec 52 n) as [<-|]; [|apply andb_false_r].
      unfold m0. rewrite Z.mod_pow2_bits_high by lia. reflexivity. }
    rewrite <- Z.lxor_lor by exact Hland.
    symmetry. apply Z.add_nocarry_lxor. exact Hland. }
  rewrite Hlor.
  destruct (m0 + 2 ^ 52) as [|p|p] eqn:Hm; try discriminate.
  intros [= <- <- <-]. right.
  change (Z.ones 11) with 2047 in Hne1. change (2 ^ 11) with 2048 in He0.
  split; lia.
Qed.

Lemma to_int64_finite (s : bool) (m : positive) (e : Z) :
  e <= 0 ->
  Z.pos m / 2 ^ (- e) <= max_int64 ->
  to_int64 (S754_finite s m e) = cond_Zopp s (Z.pos m / 2 ^ (- e)).
Proof.
  intros He Hrange. unfold to_int64.
  assert (Hmag : (if 0 <=? e then Z.shiftl (Z.pos m) e
                  else Z.shiftr (Z.pos m) (- e)) = Z.pos m / 2 ^ (- e)).
  { destruct (Z.leb_spec 0 e).
    - replace e with 0 by lia. cbn. rewrite Z.div_1_r. reflexivity.
    - apply Z.shiftr_div_pow2. lia. }
  rewrite Hmag.
  assert (0 <= Z.pos m / 2 ^ (- e))
    by (apply Z.div_pos; [lia|apply Z.pow_pos_nonneg; lia]).
  unfold cond_Zopp, max_int64, min_int64 in *.
  destruct s.
  - replace ((- 2 ^ 63 <=? - (Z.pos m / 2 ^ (- e)))
             && (- (Z.pos m / 2 ^ (- e)) <=? 2 ^ 63 - 1)) with true;
      [reflexivity|].
    symmetry. apply andb_true_intro. split; apply Z.leb_le; lia.
  - replace ((- 2 ^ 63 <=? Z.pos m / 2 ^ (- e))
             && (Z.pos m / 2 ^ (- e) <=? 2 ^ 63 - 1)) with true;
      [reflexivity|].
    symmetry. apply andb_true_intro. split; apply Z.leb_le; lia.
Qed.

Lemma binary_normalize_signed (s : bool) (p : positive) (e : Z) :
  binary_normalize prec emax (cond_Zopp s (Z.pos p)) e false
  = binary_round prec emax s p e.
Proof. destruct s; reflexivity. Qed.

(** The whole seconds, at most 53 bits of them, are a float without
    loss, with the exponent of the float they were cut from. *)
Lemma of_int64_exact (s : bool) (pS : positive) (k : Z) :
  0 <= k <= 52 ->
  2 ^ (52 - k) <= Z.pos pS < 2 ^ (53 - k) ->
  exists p' : positive,
    Z.pos p' = Z.pos pS * 2 ^ k
    /\ of_int64 (cond_Zopp s (Z.pos pS)) = S754_finite s p' (- k).
Proof.
  intros Hk HS. unfold of_int64. rewrite binary_normalize_signed.
  assert (Hd : Z.pos (digits2_pos pS) = 53 - k).
  { apply digits_unique. replace (53 - k - 1) with (52 - k) by lia. exact HS. }
  destruct (binary_round_exact s pS 0) as (p' & Hp' & _ & Hround);
    [lia|lia|].
  exists p'. rewrite Hd in Hp', Hround.
  replace (53 - (53 - k)) with k in Hp' by lia.
  replace (53 - k + 0 - 53) with (- k) in Hround by lia.
  split; assumption.
Qed.

(** The difference of two floats of one sign and one exponent. *)
Lemma sub_aligned (s : bool) (m p' : positive) (e : Z) :
  sub (S754_finite s m e) (S754_finite s p' e)
  = binary_normalize prec emax (cond_Zopp s (Z.pos m - Z.pos p')) e false.
Proof.
  unfold sub, SFsub. rewrite Z.min_id. unfold shl_align.
  rewrite Z.sub_diag. cbn [fst]. f_equal. destruct s; cbn [cond_Zopp]; lia.
Qed.

(** The fraction, when it is not zero, is a float without loss. *)
Lemma normalize_fraction (s : bool) (pr : positive) (e : Z) :
  -52 <= e <= 0 ->
  Z.pos pr < 2 ^ (- e) ->
  exists pf : positive,
    Z.pos pf = Z.pos pr * 2 ^ (53 - Z.pos (digits2_pos pr))
    /\ Z.pos (digits2_pos pf) = 53
    /\ Z.pos (digits2_pos pr) <= - e
    /\ binary_normalize prec emax (cond_Zopp s (Z.pos pr)) e false
       = S754_finite s pf (Z.pos (digits2_pos pr) + e - 53).
Proof.
  intros He Hr. rewrite binary_normalize_signed.
  assert (Hd : Z.pos (digits2_pos pr) <= - e) by (apply digits_le; lia).
  destruct (binary_round_exact s pr e) as (pf & Hpf & Hdf & Hround);
    [lia|lia|].
  exists pf. auto.
Qed.

Lemma billion_eq : billion = S754_finite false 8388608000000000 (-23).
Proof. vm_compute. reflexivity. Qed.

Lemma int32_of_int64_small (n : Z) :
  - 2 ^ 31 <= n < 2 ^ 31 -> int32_of_int64 n = n.
Proof.
  intros Hn. unfold int32_of_int64. rewrite Z.mod_small; lia.
Qed.


Lemma div_succ_le (a b : Z) : 0 < b -> (a + 1) / b <= a / b + 1.
Proof.
  intros Hb. rewrite <- (Z.div_add a 1 b) by lia.
  apply Z.div_le_mono; lia.
Qed.

(** The nanoseconds of a fraction [pr * 2^e] below one: the fraction
    times 10^9, cut to an integer, or one above it when the product was
    rounded up across an integer; never 10^9 itself. *)
Lemma nanos_of_fraction (s : bool) (pr : positive) (e : Z) :
  -52 <= e <= 0 ->
  Z.pos pr < 2 ^ (- e) ->
  exists N : Z,
    to_int64 (mul (binary_normalize prec emax (cond_Zopp s (Z.pos pr)) e false)
                billion) = cond_Zopp s N
    /\ Z.pos pr * 10 ^ 9 / 2 ^ (- e) <= N <= Z.pos pr * 10 ^ 9 / 2 ^ (- e) + 1
    /\ 0 <= N <= 999999999.
Proof.
  intros He Hr.
  destruct (normalize_fraction s pr e He Hr) as (pf & Hpf & Hdf & Hrho & Hnorm).
  rewrite Hnorm, billion_eq. unfold mul, SFmul. rewrite xorb_false_r.
  pose proof (digits_bounds pr) as [Hrlo Hrhi].
  pose proof (digits_bounds pf) as [Hflo Hfhi]. rewrite Hdf in Hflo, Hfhi.
  set (rho := Z.pos (digits2_pos pr)) in *.
  assert (Hrho1 : 1 <= rho) by (unfold rho; lia).
  set (M := (pf * 8388608000000000)%positive).
  assert (HM : Z.pos M = Z.pos pf * 8388608000000000) by reflexivity.
  set (d := Z.pos (digits2_pos M)).
  pose proof (digits_bounds M) as [HMlo HMhi]. fold d in HMlo, HMhi.
  assert (Hd : 105 <= d <= 106).
  { split.
    - assert (2 ^ 104 < 2 ^ d).
      { change (2 ^ 104) with (2 ^ 52 * 2 ^ 52).
        change (2 ^ (53 - 1)) with (2 ^ 52) in Hflo. nia. }
      assert (104 < d) by (apply (Z.pow_lt_mono_r_iff 2); lia). lia.
    - apply digits_le; [lia|].
      change (2 ^ 106) with (2 ^ 53 * 2 ^ 53). nia. }
  destruct (round_then_truncate s M (rho + e - 53 + -23))
    as (q' & Hq' & Htrunc); [fold d; lia|fold d; lia|].
  fold d in Hq', Htrunc.
  set (A := 2 ^ (d - 53)) in *.
  set (B := 2 ^ (53 - d - (rho + e - 53 + -23))) in *.
  set (J := 2 ^ (53 - rho)) in *.
  set (K := 2 ^ (- e)) in *.
  assert (HA : 0 < A) by (apply Z.pow_pos_nonneg; lia).
  assert (HB : 0 < B) by (apply Z.pow_pos_nonneg; lia).
  assert (HJ : 2 <= J).
  { unfold J. change 2 with (2 ^ 1) at 1. apply Z.pow_le_mono_r; lia. }
  assert (HK : 0 < K) by (apply Z.pow_pos_nonneg; lia).
  assert (HAB : A * B = 8388608 * J * K).
  { unfold A, B, J, K. change 8388608 with (2 ^ 23).
    rewrite <- !Z.pow_add_r by lia. f_equal. lia. }
  assert (HA53 : A <= 2 ^ 53).
  { unfold A. apply Z.pow_le_mono_r; lia. }
  set (q := Z.pos M / A) in *.
  assert (HqA : q * A <= Z.pos M).
  { unfold q. rewrite Z.mul_comm. apply Z.mul_div_le. exact HA. }
  assert (Hq0 : 0 <= q) by (apply Z.div_pos; lia).
  assert (HN0 : q / B = Z.pos pr * 10 ^ 9 / K).
  { unfold q. rewrite Z.div_div by lia. rewrite HAB, HM, Hpf. fold J.
    replace (Z.pos pr * J * 8388608000000000)
      with (Z.pos pr * 10 ^ 9 * (8388608 * J)) by (change (10 ^ 9) with 1000000000; ring).
    replace (8388608 * J * K) with (K * (8388608 * J)) by ring.
    apply Z.div_mul_cancel_r; lia. }
  exists (q' / B).
  assert (Hlow : q / B <= q' / B) by (apply Z.div_le_mono; lia).
  assert (Hhigh : q' / B <= q / B + 1).
  { etransitivity; [apply Z.div_le_mono; [exact HB|apply Hq']|].
    apply div_succ_le. exact HB. }
  assert (Hbelow : q' / B < 10 ^ 9).
  { apply Z.div_lt_upper_bound; [exact HB|].
    change (10 ^ 9) with 1000000000.
    assert (q + 1 < 1000000000 * B); [|lia].
    assert (Hr' : Z.pos pr <= K - 1) by (unfold K; lia).
    assert (HMle : Z.pos M <= (K - 1) * J * 8388608000000000).
    { rewrite HM, Hpf. fold J. nia. }
    assert (HAJ : A < J * 8388608000000000).
    { change (2 ^ 53) with 9007199254740992 in HA53. nia. }
    assert ((q + 1) * A < 1000000000 * B * A); [nia|nia]. }
  change (10 ^ 9) with 1000000000 in *.
  assert (HNpos : 0 <= q' / B) by (apply Z.div_pos; lia).
  split; [|split; [rewrite <- HN0; lia|lia]].
  apply Htrunc. unfold max_int64. lia.
Qed.

End FloatFacts.

(** For a float [m * 2^e] of sign [s] that is at least one and less than
    2^53 in magnitude: the seconds of the timestamp are the whole part of
    the float; its nanoseconds are the fractional part times 10^9, cut to
    an integer, or that integer plus one where the float product was
    rounded up, and never reach 10^9; both carry the sign of the float. *)
Lemma timestampFromFloat64_whole_and_fraction (ts : float64) (s : bool)
    (m : positive) (e : Z) :
  decode ts = S754_finite s m e ->
  e <= 0 ->
  2 ^ (- e) <= Z.pos m ->
  timestamppb.Seconds (timestampFromFloat64 ts)
  = (if s then - (Z.pos m / 2 ^ (- e)) else Z.pos m / 2 ^ (- e))
  /\ exists N : Z,
       timestamppb.Nanos (timestampFromFloat64 ts) = (if s then - N else N)
       /\ (Z.pos m mod 2 ^ (- e)) * 10 ^ 9 / 2 ^ (- e) <= N
          <= (Z.pos m mod 2 ^ (- e)) * 10 ^ 9 / 2 ^ (- e) + 1
       /\ 0 <= N <= 999999999.
Proof.
  intros Hdec He Hone.
  assert (Hk : -52 <= e /\ 2 ^ 52 <= Z.pos m < 2 ^ 53).
  { destruct (decode_finite ts s m e Hdec) as [[-> Hsub] | [Hnorm Hm]].
    - exfalso. assert (2 ^ 52 < 2 ^ (- -1074)) by (vm_compute; reflexivity).
      lia.
    - split; [|exact Hm].
      destruct (Z.leb_spec (-52) e) as [|Hlt]; [assumption|exfalso].
      assert (2 ^ 53 <= 2 ^ (- e)) by (apply Z.pow_le_mono_r; lia). lia. }
  destruct Hk as [He52 Hm].
  set (K := 2 ^ (- e)) in *.
  assert (HK : 0 < K) by (apply Z.pow_pos_nonneg; lia).
  set (secs := Z.pos m / K).
  set (r := Z.pos m mod K).
  assert (Hdiv : Z.pos m = K * secs + r) by (apply Z.div_mod; lia).
  assert (Hr : 0 <= r < K) by (apply Z.mod_pos_bound; exact HK).
  assert (HS : 2 ^ (52 - - e) <= secs < 2 ^ (53 - - e)).
  { unfold secs. split.
    - apply Z.div_le_lower_bound; [exact HK|]. unfold K.
      rewrite <- Z.pow_add_r by lia. replace (- e + (52 - - e)) with 52 by lia.
      lia.
    - apply Z.div_lt_upper_bound; [exact HK|]. unfold K.
      rewrite <- Z.pow_add_r by lia. replace (- e + (53 - - e)) with 53 by lia.
      lia. }
  assert (HSpos : 0 < secs).
  { assert (0 < 2 ^ (52 - - e)) by (apply Z.pow_pos_nonneg; lia). lia. }
  assert (HS53 : secs < 2 ^ 53).
  { assert (2 ^ (53 - - e) <= 2 ^ 53) by (apply Z.pow_le_mono_r; lia). lia. }
  assert (Hsecs : to_int64 (S754_finite s m e) = cond_Zopp s secs).
  { apply to_int64_finite; [exact He|]. fold K. fold secs. unfold max_int64.
    change (2 ^ 53) with 9007199254740992 in HS53. lia. }
  unfold timestampFromFloat64. cbn [timestamppb.Seconds timestamppb.Nanos].
  rewrite Hdec, Hsecs.
  split; [destruct s; reflexivity|].
  destruct secs as [|pS|pS] eqn:HSeq; [lia| |lia].
  destruct (of_int64_exact s pS (- e)) as (p' & Hp' & Hof); [lia|exact HS|].
  rewrite Hof. replace (- - e) with e by lia. rewrite sub_aligned.
  replace (Z.pos m - Z.pos p') with r by (rewrite Hp'; fold K; lia).
  destruct r as [|pr|pr] eqn:Hreq; [| |lia].
  - (* a whole number of seconds *)
    exists 0. rewrite billion_eq. cbn. split; [destruct s; reflexivity|].
    split; [|lia]. rewrite Z.div_0_l by lia. lia.
  - destruct (nanos_of_fraction s pr e) as (N & HN & Hbounds & Hrange);
      [lia|fold K; lia|].
    exists N. rewrite HN. fold K in Hbounds.
    split; [|split; assumption].
    rewrite int32_of_int64_small
      by (destruct s; cbn [cond_Zopp]; change (2 ^ 31) with 2147483648; lia).
    destruct s; reflexivity.
Qed.

(** C7: [adjustStartTimestamp] returns the metrics in their order and with
    their descriptors; a metric of type gauge-double or gauge-distribution
    is returned as it is; in a metric of any other type every timeseries
    keeps its label values and points and gets as start timestamp the
    converted start time.  The conversion, for a start time [m * 2^e] of
    sign [s] that is at least one second and less than 2^53 seconds in
    magnitude: the seconds are the whole part of the start time,
    [m / 2^(-e)]; the nanoseconds are its fractional part,
    [m mod 2^(-e)] out of [2^(-e)], times 10^9 and cut to an integer, or
    that integer plus one, and stay below 10^9; both carry the sign. *)
Theorem adjustStartTimestamp_stamps (startTime : float64)
    (metrics : list metricspb.Metric) :
  Forall2
    (fun m m' =>
       metricspb.MetricDescriptor_ m' = metricspb.MetricDescriptor_ m
       /\ match metricspb.GetType (metricspb.GetMetricDescriptor m) with
          | metricspb.GAUGE_DOUBLE | metricspb.GAUGE_DISTRIBUTION => m' = m
          | _ =>
              Forall2
                (fun ts ts' =>
                   metricspb.StartTimestamp ts'
                   = Some (timestampFromFloat64 startTime)
                   /\ metricspb.LabelValues ts' = metricspb.LabelValues ts
                   /\ metricspb.Points ts' = metricspb.Points ts)
                (metricspb.Timeseries m) (metricspb.Timeseries m')
          end)
    metrics (adjustStartTimestamp startTime metrics)
  /\ forall (s : bool) (m : positive) (e : Z),
       decode startTime = S754_finite s m e ->
       e <= 0 ->
       2 ^ (- e) <= Z.pos m ->
       timestamppb.Seconds (timestampFromFloat64 startTime)
       = (if s then - (Z.pos m / 2 ^ (- e)) else Z.pos m / 2 ^ (- e))
       /\ exists N : Z,
            timestamppb.Nanos (timestampFromFloat64 startTime)
            = (if s then - N else N)
            /\ (Z.pos m mod 2 ^ (- e)) * 10 ^ 9 / 2 ^ (- e) <= N
               <= (Z.pos m mod 2 ^ (- e)) * 10 ^ 9 / 2 ^ (- e) + 1
            /\ 0 <= N <= 999999999.
Proof.
  split; [|intros s m e; apply timestampFromFloat64_whole_and_fraction].
  unfold adjustStartTimestamp.
  generalize (timestampFromFloat64 startTime) as stamp. intros stamp.
  induction metrics as [|m metrics IH]; cbn; constructor; [|exact IH].
  unfold adjustStartTimestampMetric.
  destruct (metricspb.GetType (metricspb.GetMetricDescriptor m)); cbn;
    (split; [reflexivity|]); try reflexivity;
    unfold metricspb.GetTimeseries;
    induction (metricspb.Timeseries m) as [|ts tss IHts]; cbn; constructor;
    auto.
Qed.



(** * The transaction on concrete scrapes *)

(** ** Append on a cancelled context *)

(** C1, counterexample: a new transaction on a cancelled context is
    answered the aborted error, yet its start-time tracking has moved from
    -1 to the sample's timestamp: the transaction is not what it was. *)
Lemma Append_cancelled_moves_start_time :
  Done (ctx (Demo.fresh Demo.cancelled)) = true
  /\ result (Append (Demo.fresh Demo.cancelled) 0
               (sLabels (Demo.up 1000 Demo.one)) 1000 Demo.one)
     = Returned (0, Some errTransactionAborted)
  /\ startTimeMs (Demo.fresh Demo.cancelled) = -1
  /\ startTimeMs (state (Append (Demo.fresh Demo.cancelled) 0
                           (sLabels (Demo.up 1000 Demo.one)) 1000 Demo.one))
     = 1000
  /\ state (Append (Demo.fresh Demo.cancelled) 0
              (sLabels (Demo.up 1000 Demo.one)) 1000 Demo.one)
     <> Demo.fresh Demo.cancelled.
Proof.
  repeat split. intros Heq. apply (f_equal startTimeMs) in Heq.
  vm_compute in Heq. discriminate Heq.
Qed.

Lemma Append_cancelled_witness :
  Done (ctx (Demo.fresh Demo.cancelled)) = true
  /\ result (Append (Demo.fresh Demo.cancelled) 0 [] 1000 Demo.one)
     = Returned (0, Some errTransactionAborted)
  /\ trace (Append (Demo.fresh Demo.cancelled) 0 [] 1000 Demo.one) = []
  /\ state (Append (Demo.fresh Demo.cancelled) 0 [] 1000 Demo.one)
     = set_startTimeMs
         (if startTimeMs (Demo.fresh Demo.cancelled) <? 0 then 1000
          else startTimeMs (Demo.fresh Demo.cancelled))
         (Demo.fresh Demo.cancelled)
  /\ (0 <= startTimeMs (Demo.fresh Demo.cancelled) ->
      state (Append (Demo.fresh Demo.cancelled) 0 [] 1000 Demo.one)
      = Demo.fresh Demo.cancelled).
Proof.
  split; [reflexivity|].
  apply (Append_cancelled (Demo.fresh Demo.cancelled) 0 [] 1000 Demo.one).
  reflexivity.
Defined.

(** ** Commit *)

(** C2, counterexample: the transaction is initialized and its builder
    holds no data point; [Commit] returns the no-data-to-build error, not
    nil. *)
Lemma Commit_no_data_is_an_error :
  isNew Demo.initializedEmpty = false
  /\ Demo.bPoints <$> metricBuilder_ Demo.initializedEmpty = Some []
  /\ result (Commit Demo.initializedEmpty) = Returned (Some errNoDataToBuild)
  /\ result (Commit Demo.initializedEmpty) <> Returned None.
Proof. repeat split. intros Heq. vm_compute in Heq. discriminate Heq. Qed.

Lemma Commit_no_data_witness :
  isNew Demo.initializedEmpty = false
  /\ result (Commit Demo.initializedEmpty) = Returned (Some errNoDataToBuild)
  /\ trace (Commit Demo.initializedEmpty)
     = [EvStartMetricsOp; EvBuild;
        EvEndMetricsOp dataformat 0 (Some errNoDataToBuild)]
  /\ startTimeMs (state (Commit Demo.initializedEmpty)) = -1.
Proof.
  split; [reflexivity|].
  destruct (Commit_no_data (H := Demo.collaborators) Demo.initializedEmpty
              (Demo.newBuilder {| Demo.shared := [Demo.lbl SchemeLabel "http"] |}
                 false "" 4)
              (Demo.newBuilder {| Demo.shared := [Demo.lbl SchemeLabel "http"] |}
                 false "" 4)
              [] eq_refl eq_refl eq_refl) as (Hres & Htrace & Hstate).
  rewrite Hstate. repeat split; assumption.
Defined.

Lemma Commit_missing_start_time_witness :
  isNew Demo.scrapedStartTime = false
  /\ useStartTimeMetric Demo.scrapedStartTime = true
  /\ (is_zero ∘ Demo.bStartTime) <$> metricBuilder_ Demo.scrapedStartTime
     = Some true
  /\ result (Commit Demo.scrapedStartTime) = Returned (Some errNoStartTimeMetrics)
  /\ trace (Commit Demo.scrapedStartTime)
     = [EvStartMetricsOp; EvBuild;
        EvEndMetricsOp dataformat 0 (Some errNoStartTimeMetrics)]
  /\ existsb isConsumeMetrics (trace (Commit Demo.scrapedStartTime)) = false.
Proof.
  do 3 (split; [reflexivity|]).
  destruct (metricBuilder_ Demo.scrapedStartTime) as [b|] eqn:Hb;
    [|discriminate Hb].
  apply (Commit_missing_start_time Demo.scrapedStartTime b b
           (map Demo.toMetric (Demo.bPoints b)));
    try reflexivity; try exact Hb;
    vm_compute in Hb; injection Hb as <-; reflexivity.
Defined.

Lemma Commit_new_is_noop_witness :
  isNew (Demo.fresh Demo.background) = true
  /\ result (Commit (Demo.fresh Demo.background)) = Returned None
  /\ trace (Commit (Demo.fresh Demo.background)) = []
  /\ state (Commit (Demo.fresh Demo.background)) = Demo.fresh Demo.background.
Proof.
  split; [reflexivity|].
  apply (Commit_new_is_noop (Demo.fresh Demo.background)). reflexivity.
Defined.

(** C4, counterexample: in JobsMap mode a batch is forwarded, the
    staleness pass has run before the JobsMap adjuster, and no adjustment
    step precedes it. *)
Lemma Commit_jobsMap_fixes_stale_before_adjusting :
  useStartTimeMetric Demo.scraped = false
  /\ existsb isConsumeMetrics (trace (Commit Demo.scraped)) = true
  /\ occursBefore isAdjustment isFixStaleMetrics (trace (Commit Demo.scraped))
     = false
  /\ occursBefore isFixStaleMetrics isAdjustMetrics (trace (Commit Demo.scraped))
     = true.
Proof. repeat split. Qed.

Lemma Commit_order_of_passes_witness :
  existsb isConsumeMetrics (trace (Commit Demo.scrapedWithStartTime)) = true
  /\ occursBefore isFixStaleMetrics isConsumeMetrics
       (trace (Commit Demo.scrapedWithStartTime)) = true
  /\ (useStartTimeMetric Demo.scrapedWithStartTime = true ->
      occursBefore isAdjustStartTimestamp isFixStaleMetrics
        (trace (Commit Demo.scrapedWithStartTime)) = true
      /\ existsb isAdjustMetrics (trace (Commit Demo.scrapedWithStartTime)) = false)
  /\ (useStartTimeMetric Demo.scrapedWithStartTime = false ->
      occursBefore isFixStaleMetrics isAdjustMetrics
        (trace (Commit Demo.scrapedWithStartTime)) = true
      /\ occursBefore isAdjustMetrics isConsumeMetrics
           (trace (Commit Demo.scrapedWithStartTime)) = true
      /\ occursBefore isAdjustment isFixStaleMetrics
           (trace (Commit Demo.scrapedWithStartTime)) = false).
Proof.
  split; [reflexivity|].
  apply (Commit_order_of_passes Demo.scrapedWithStartTime). reflexivity.
Defined.

(** ** The binding of the transaction *)

(** C8, counterexample: of three calls, the first looks up a target the
    metadata service does not know and fails; the second looks up the
    known target and initializes the transaction, but fails in the builder
    for want of a metric name; the third is the first to succeed and
    performs no lookup.  The lookup happened on two calls, neither of them
    the first successful one. *)
Lemma Append_looks_up_until_bound :
  map (fun r => existsb isMsGet (trace r))
    (appendAll (Demo.fresh Demo.background)
       [Demo.stray 1; Demo.nameless 2; Demo.up 3 Demo.one])
  = [true; true; false]
  /\ map succeeded
       (appendAll (Demo.fresh Demo.background)
          [Demo.stray 1; Demo.nameless 2; Demo.up 3 Demo.one])
     = [false; false; true]
  /\ map (fun r => isNew (state r))
       (appendAll (Demo.fresh Demo.background)
          [Demo.stray 1; Demo.nameless 2; Demo.up 3 Demo.one])
     = [true; false; false].
Proof. repeat split. Qed.

Lemma Append_binds_identity_once_witness :
  isNew (finalState (Demo.fresh Demo.background) [Demo.stray 1]) = true
  /\ isNew (finalState (Demo.fresh Demo.background)
              ([Demo.stray 1] ++ [Demo.nameless 2])) = false
  /\ Forall (fun r => isNew (state r) = false
                      /\ boundIdentity (state r)
                         = boundIdentity
                             (finalState (Demo.fresh Demo.background)
                                ([Demo.stray 1] ++ [Demo.nameless 2]))
                      /\ existsb isMsGet (trace r) = false)
       (appendAll (finalState (Demo.fresh Demo.background)
                     ([Demo.stray 1] ++ [Demo.nameless 2]))
          [Demo.up 3 Demo.one]).
Proof.
  do 2 (split; [reflexivity|]).
  apply (Append_binds_identity_once (Demo.fresh Demo.background)
           [Demo.stray 1] [Demo.up 3 Demo.one] (Demo.nameless 2));
    reflexivity.
Defined.

(** ** The start-time tracking *)

(** C9, counterexample: after samples stamped 5 and 3 the tracking holds
    5, the smallest timestamp being 3. *)
Lemma Append_keeps_first_not_least_timestamp :
  startTimeMs (Demo.fresh Demo.background) = -1
  /\ startTimeMs (finalState (Demo.fresh Demo.background)
                    [Demo.up 5 Demo.one; Demo.up 3 Demo.one]) = 5
  /\ minTimestamp 5 [3] = 3
  /\ startTimeMs (finalState (Demo.fresh Demo.background)
                    [Demo.up 5 Demo.one; Demo.up 3 Demo.one])
     <> minTimestamp (sT (Demo.up 5 Demo.one)) [sT (Demo.up 3 Demo.one)].
Proof. repeat split. intros Heq. vm_compute in Heq. discriminate Heq. Qed.

Lemma Append_tracks_first_timestamp_witness :
  startTimeMs (Demo.fresh Demo.background) < 0
  /\ startTimeMs (finalState (Demo.fresh Demo.background)
                    ([Demo.stray (-2)] ++ Demo.up 5 Demo.one :: [Demo.up 3 Demo.one]))
     = 5.
Proof.
  split; [reflexivity|].
  apply (Append_tracks_first_timestamp (Demo.fresh Demo.background)
           [Demo.stray (-2)] [Demo.up 3 Demo.one] (Demo.up 5 Demo.one)).
  - reflexivity.
  - constructor; [reflexivity|constructor].
  - discriminate.
Defined.

(** ** The staleness pass and the stamping *)

(** The stale gauge point comes out flagged and zeroed, the ordinary NaN
    next to it as it went in. *)
Example fixStaleMetrics_gauge :
  pointAt (fixStaleMetrics (H := Demo.collaborators) Demo.staleBatch) 0 0 0 0
  = Some (NumberPoint
            {| pdata.nAttributes := [("code", "200")];
               pdata.nStartTimestamp := 7; pdata.nTimestamp := 9;
               pdata.nValue := pdata.ValDouble 0; pdata.nFlags := 1 |})
  /\ pointAt (fixStaleMetrics (H := Demo.collaborators) Demo.staleBatch) 0 0 0 1
     = pointAt Demo.staleBatch 0 0 0 1
  /\ pointAt Demo.staleBatch 0 0 0 1
     = Some (NumberPoint (Demo.numberPoint (pdata.ValDouble value.NormalNaN))).
Proof. repeat split. Qed.

Example fixStaleMetrics_histogram_summary :
  pointAt (fixStaleMetrics (H := Demo.collaborators) Demo.staleBatch) 0 0 1 0
  = Some (HistogramPoint
            {| pdata.hAttributes := []; pdata.hStartTimestamp := 7;
               pdata.hTimestamp := 9; pdata.hCount := 0; pdata.hSum := 0;
               pdata.hBucketCounts := []; pdata.hExplicitBounds := [];
               pdata.hFlags := 1 |})
  /\ pointAt (fixStaleMetrics (H := Demo.collaborators) Demo.staleBatch) 0 0 2 0
     = Some (SummaryPoint
               {| pdata.sAttributes := []; pdata.sStartTimestamp := 7;
                  pdata.sTimestamp := 9; pdata.sCount := 0; pdata.sSum := 0;
                  pdata.sQuantileValues := []; pdata.sFlags := 1 |})
  /\ pointAt (fixStaleMetrics (H := Demo.collaborators) Demo.staleBatch) 0 0 2 1
     = Some (SummaryPoint (Demo.summaryPoint value.NormalNaN)).
Proof. repeat split. Qed.

(** 1.5, 1643723400.25, 1643723400.123 and -1.5 seconds. *)
Example timestampFromFloat64_values :
  timestampFromFloat64 0x3ff8000000000000
  = {| timestamppb.Seconds := 1; timestamppb.Nanos := 500000000 |}
  /\ timestampFromFloat64 0x41d87e4ea2100000
     = {| timestamppb.Seconds := 1643723400; timestamppb.Nanos := 250000000 |}
  /\ timestampFromFloat64 0x41d87e4ea207df3b
     = {| timestamppb.Seconds := 1643723400; timestamppb.Nanos := 122999906 |}
  /\ timestampFromFloat64 0xbff8000000000000
     = {| timestamppb.Seconds := -1; timestamppb.Nanos := -500000000 |}.
Proof. repeat split; vm_compute; reflexivity. Qed.

(** A cumulative metric and an integer gauge are stamped, a double gauge
    and a gauge distribution are not. *)
Example adjustStartTimestamp_by_type :
  map (fun m => map metricspb.StartTimestamp (metricspb.Timeseries m))
    (adjustStartTimestamp 0x3ff8000000000000
       [Demo.ocMetric "c" metricspb.CUMULATIVE_DOUBLE;
        Demo.ocMetric "g" metricspb.GAUGE_DOUBLE;
        Demo.ocMetric "d" metricspb.GAUGE_DISTRIBUTION;
        Demo.ocMetric "i" metricspb.GAUGE_INT64])
  = [ [Some {| timestamppb.Seconds := 1; timestamppb.Nanos := 500000000 |}];
      [None];
      [None];
      [Some {| timestamppb.Seconds := 1; timestamppb.Nanos := 500000000 |}] ].
Proof. vm_compute. reflexivity. Qed.

(** The start time 1643723400.123 is the float [6894275632029499 * 2^-22]:
    a cumulative metric is stamped with 1643723400 seconds and 122999906
    or 122999907 nanoseconds, a double gauge is left as it was. *)
Lemma adjustStartTimestamp_stamps_witness :
  decode 0x41d87e4ea207df3b = S754_finite false 6894275632029499 (-22)
  /\ -22 <= 0
  /\ 2 ^ (- -22) <= 6894275632029499
  /\ Forall2
       (fun m m' =>
          match metricspb.GetType (metricspb.GetMetricDescriptor m) with
          | metricspb.GAUGE_DOUBLE | metricspb.GAUGE_DISTRIBUTION => m' = m
          | _ =>
              Forall2
                (fun _ ts' =>
                   metricspb.StartTimestamp ts'
                   = Some (timestampFromFloat64 0x41d87e4ea207df3b))
                (metricspb.Timeseries m) (metricspb.Timeseries m')
          end)
       [Demo.ocMetric "c" metricspb.CUMULATIVE_DOUBLE;
        Demo.ocMetric "g" metricspb.GAUGE_DOUBLE]
       (adjustStartTimestamp 0x41d87e4ea207df3b
          [Demo.ocMetric "c" metricspb.CUMULATIVE_DOUBLE;
           Demo.ocMetric "g" metricspb.GAUGE_DOUBLE])
  /\ timestamppb.Seconds (timestampFromFloat64 0x41d87e4ea207df3b) = 1643723400
  /\ exists N : Z,
       timestamppb.Nanos (timestampFromFloat64 0x41d87e4ea207df3b) = N
       /\ 122999906 <= N <= 122999907.
Proof.
  destruct (adjustStartTimestamp_stamps 0x41d87e4ea207df3b
              [Demo.ocMetric "c" metricspb.CUMULATIVE_DOUBLE;
               Demo.ocMetric "g" metricspb.GAUGE_DOUBLE])
    as [Hstamped Hconv].
  destruct (Hconv false 6894275632029499%positive (-22) eq_refl)
    as (Hsecs & N & Hnanos & Hbounds & _);
    [discriminate|vm_compute; discriminate|].
  split; [reflexivity|]. split; [discriminate|].
  split; [vm_compute; discriminate|].
  split.
  - eapply Forall2_impl; [exact Hstamped|].
    intros m m' [_ Hm].
    destruct (metricspb.GetType (metricspb.GetMetricDescriptor m));
      try exact Hm;
      (eapply Forall2_impl; [exact Hm|]; intros ts ts' [Hts _]; exact Hts).
  - split; [exact Hsecs|]. exists N. split; [exact Hnanos|exact Hbounds].
Defined.

(** * Further properties of the transaction *)

Section AppendFacts.

Context `{Collaborators}.

Implicit Types (tr : transaction) (ls : labels.Labels) (t : Z) (v : float64).

Lemma overlay_eq ls (ext : labels.Labels) :
  (if 0 <? Z.of_nat (length ext) then (ls ++ ext)%list else ls) = overlaid ls ext.
Proof.
  unfold overlaid. destruct ext as [|l ext]; cbn; [|reflexivity].
  symmetry. apply app_nil_r.
Qed.

(** [Append] with the tracking done and the labels overlaid. *)
Lemma Append_running tr (ref : SeriesRef) ls t v :
  Done (ctx tr) = false ->
  Append tr ref ls t v
  = if isNew tr then
      match initTransaction (trackStartTime t tr)
              (overlaid ls (externalLabels tr)) with
      | (Some err, tr', evs) => ret (0, Some err) tr' evs
      | (None, tr', evs) =>
          addToBuilder tr' evs (overlaid ls (externalLabels tr)) t v
      end
    else addToBuilder (trackStartTime t tr) []
           (overlaid ls (externalLabels tr)) t v.
Proof.
  intros Hctx. unfold Append. rewrite !trackStartTime_eq.
  cbn [ctx isNew externalLabels set_startTimeMs]. rewrite Hctx, overlay_eq.
  reflexivity.
Qed.

Ltac append_paths tr :=
  unfold Append; rewrite trackStartTime_eq;
  cbn [ctx isNew externalLabels set_startTimeMs];
  destruct (Done (ctx tr)); cbn;
  [| destruct (isNew tr);
     [ unfold initTransaction; cbn [ms jobsMap set_startTimeMs];
       match goal with |- context [if ?c then _ else _] => destruct c end;
       cbn;
       [| match goal with |- context [ms tr ?j ?i] =>
            destruct (ms tr j i) as [?mc|?err] end; cbn;
          [destruct (jobsMap tr); cbn|] ]
     | unfold addToBuilder; cbn; destruct (metricBuilder_ tr); cbn ] ].

(** X1: whatever [Append] is given and whichever way it takes, the series
    reference it returns is 0. *)
Theorem Append_returns_ref_zero tr (ref : SeriesRef) ls t v :
  result (Append tr ref ls t v) = Panicked
  \/ exists e, result (Append tr ref ls t v) = Returned (0, e).
Proof. append_paths tr; eauto. Qed.

(** X2: an [Append] leaves nothing but a metadata lookup, the creation of
    the builder and the hand-over of the sample: it calls neither the
    translator, the adjuster, the obsreport receiver nor the sink. *)
Theorem Append_never_forwards tr (ref : SeriesRef) ls t v :
  forallb isAppendEvent (trace (Append tr ref ls t v)) = true.
Proof. append_paths tr; reflexivity. Qed.

(** X3: on a new transaction, a sample whose overlaid labels lack the job
    or the instance is refused with the no-job-instance error before the
    metadata service or the builder is called; the transaction stays new
    and only its start-time tracking may have been set. *)
Theorem Append_missing_job_instance tr (ref : SeriesRef) ls t v :
  Done (ctx tr) = false ->
  isNew tr = true ->
  labels.Get (overlaid ls (externalLabels tr)) JobLabel = ""
  \/ labels.Get (overlaid ls (externalLabels tr)) InstanceLabel = "" ->
  result (Append tr ref ls t v) = Returned (0, Some errNoJobInstance)
  /\ trace (Append tr ref ls t v) = []
  /\ state (Append tr ref ls t v)
     = set_startTimeMs (if startTimeMs tr <? 0 then t else startTimeMs tr) tr.
Proof.
  intros Hctx Hnew Hlabels. rewrite (Append_running _ _ _ _ _ Hctx), Hnew.
  rewrite trackStartTime_eq. unfold initTransaction.
  assert (Hcond : String.eqb (labels.Get (overlaid ls (externalLabels tr)) JobLabel) ""
                  || String.eqb (labels.Get (overlaid ls (externalLabels tr))
                                   InstanceLabel) "" = true).
  { destruct Hlabels as [-> | ->]; cbn; [reflexivity|apply orb_true_r]. }
  rewrite Hcond. repeat split.
Qed.

(** X4: on a new transaction, a failure of the metadata lookup is returned
    as it is; the lookup is the only call made, no builder is created and
    the transaction stays new. *)
Theorem Append_lookup_failure tr (ref : SeriesRef) ls t v (err : error) :
  Done (ctx tr) = false ->
  isNew tr = true ->
  labels.Get (overlaid ls (externalLabels tr)) JobLabel <> "" ->
  labels.Get (overlaid ls (externalLabels tr)) InstanceLabel <> "" ->
  ms tr (labels.Get (overlaid ls (externalLabels tr)) JobLabel)
        (labels.Get (overlaid ls (externalLabels tr)) InstanceLabel)
  = inr err ->
  result (Append tr ref ls t v) = Returned (0, Some err)
  /\ trace (Append tr ref ls t v)
     = [EvMsGet (labels.Get (overlaid ls (externalLabels tr)) JobLabel)
          (labels.Get (overlaid ls (externalLabels tr)) InstanceLabel)]
  /\ state (Append tr ref ls t v)
     = set_startTimeMs (if startTimeMs tr <? 0 then t else startTimeMs tr) tr.
Proof.
  intros Hctx Hnew Hjob Hinst Hms.
  rewrite (Append_running _ _ _ _ _ Hctx), Hnew, trackStartTime_eq.
  unfold initTransaction. cbn [ms set_startTimeMs].
  apply String.eqb_neq in Hjob, Hinst. rewrite Hjob, Hinst, Hms.
  repeat split.
Qed.

(** X5: the [Append] that initializes a transaction binds the node and
    the resource made from the resolved job, instance and the target's
    scheme, binds job and instance only when the transaction has a jobs
    map, creates the builder with the start-time tracking as it stands
    after this sample, hands the sample to that builder and returns the
    builder's answer. *)
Theorem Append_initializes tr (ref : SeriesRef) ls t v (mc : MetadataCache) :
  Done (ctx tr) = false ->
  isNew tr = true ->
  labels.Get (overlaid ls (externalLabels tr)) JobLabel <> "" ->
  labels.Get (overlaid ls (externalLabels tr)) InstanceLabel <> "" ->
  ms tr (labels.Get (overlaid ls (externalLabels tr)) JobLabel)
        (labels.Get (overlaid ls (externalLabels tr)) InstanceLabel)
  = inl mc ->
  isNew (state (Append tr ref ls t v)) = false
  /\ (node (state (Append tr ref ls t v)),
      resource (state (Append tr ref ls t v)))
     = (Some (fst (createNodeAndResource
                     (labels.Get (overlaid ls (externalLabels tr)) JobLabel)
                     (labels.Get (overlaid ls (externalLabels tr)) InstanceLabel)
                     (labels.Get (SharedLabels mc) SchemeLabel))),
        Some (snd (createNodeAndResource
                     (labels.Get (overlaid ls (externalLabels tr)) JobLabel)
                     (labels.Get (overlaid ls (externalLabels tr)) InstanceLabel)
                     (labels.Get (SharedLabels mc) SchemeLabel))))
  /\ (job (state (Append tr ref ls t v)), instance (state (Append tr ref ls t v)))
     = match jobsMap tr with
       | Some _ => (labels.Get (overlaid ls (externalLabels tr)) JobLabel,
                    labels.Get (overlaid ls (externalLabels tr)) InstanceLabel)
       | None => (job tr, instance tr)
       end
  /\ metricBuilder_ (state (Append tr ref ls t v))
     = Some (fst (AddDataPoint
                    (newMetricBuilder mc (useStartTimeMetric tr)
                       (startTimeMetricRegex tr)
                       (if startTimeMs tr <? 0 then t else startTimeMs tr))
                    (overlaid ls (externalLabels tr)) t v))
  /\ result (Append tr ref ls t v)
     = Returned (0, snd (AddDataPoint
                           (newMetricBuilder mc (useStartTimeMetric tr)
                              (startTimeMetricRegex tr)
                              (if startTimeMs tr <? 0 then t else startTimeMs tr))
                           (overlaid ls (externalLabels tr)) t v))
  /\ trace (Append tr ref ls t v)
     = [EvMsGet (labels.Get (overlaid ls (externalLabels tr)) JobLabel)
          (labels.Get (overlaid ls (externalLabels tr)) InstanceLabel);
        EvNewMetricBuilder (if startTimeMs tr <? 0 then t else startTimeMs tr);
        EvAddDataPoint (overlaid ls (externalLabels tr)) t v].
Proof.
  intros Hctx Hnew Hjob Hinst Hms.
  rewrite (Append_running _ _ _ _ _ Hctx), Hnew, trackStartTime_eq.
  unfold initTransaction. cbn [ms jobsMap set_startTimeMs].
  apply String.eqb_neq in Hjob, Hinst. rewrite Hjob, Hinst, Hms. cbn.
  destruct (jobsMap tr); cbn; repeat split.
Qed.

Lemma Get_overlaid ls (ext : labels.Labels) (name : string) :
  labels.Get (overlaid ls ext) name
  = if hasLabel ls name then labels.Get ls name else labels.Get ext name.
Proof.
  unfold overlaid, hasLabel. induction ls as [|l ls IH]; cbn; [reflexivity|].
  destruct (String.eqb (labels.Name l) name); cbn; [reflexivity|exact IH].
Qed.

(** X6: the job and the instance a new transaction looks up are taken
    from the sample's own labels where the sample has them, and from the
    external labels only where it has not; with one of the two empty no
    lookup is made. *)
Theorem Append_resolves_sample_labels_first tr (ref : SeriesRef) ls t v :
  Done (ctx tr) = false ->
  isNew tr = true ->
  List.filter isMsGet (trace (Append tr ref ls t v))
  = if String.eqb (if hasLabel ls JobLabel then labels.Get ls JobLabel
                   else labels.Get (externalLabels tr) JobLabel) ""
       || String.eqb (if hasLabel ls InstanceLabel then labels.Get ls InstanceLabel
                      else labels.Get (externalLabels tr) InstanceLabel) ""
    then []
    else [EvMsGet (if hasLabel ls JobLabel then labels.Get ls JobLabel
                   else labels.Get (externalLabels tr) JobLabel)
            (if hasLabel ls InstanceLabel then labels.Get ls InstanceLabel
             else labels.Get (externalLabels tr) InstanceLabel)].
Proof.
  intros Hctx Hnew.
  rewrite (Append_running _ _ _ _ _ Hctx), Hnew, trackStartTime_eq.
  unfold initTransaction. cbn [ms jobsMap set_startTimeMs].
  rewrite <- !Get_overlaid.
  match goal with |- context [if ?c then _ else _] => destruct c end;
    [reflexivity|].
  match goal with |- context [ms tr ?j ?i] => destruct (ms tr j i) end;
    [|reflexivity].
  unfold addToBuilder. cbn. reflexivity.
Qed.

(** An initialized transaction with a builder keeps its context, its
    external labels and a builder through an [Append]. *)
Lemma Append_delivers tr (ref : SeriesRef) ls t v (b : metricBuilder) :
  Done (ctx tr) = false ->
  isNew tr = false ->
  metricBuilder_ tr = Some b ->
  result (Append tr ref ls t v)
  = Returned (0, snd (AddDataPoint b (overlaid ls (externalLabels tr)) t v))
  /\ trace (Append tr ref ls t v)
     = [EvAddDataPoint (overlaid ls (externalLabels tr)) t v]
  /\ metricBuilder_ (state (Append tr ref ls t v))
     = Some (fst (AddDataPoint b (overlaid ls (externalLabels tr)) t v))
  /\ ctx (state (Append tr ref ls t v)) = ctx tr
  /\ externalLabels (state (Append tr ref ls t v)) = externalLabels tr
  /\ isNew (state (Append tr ref ls t v)) = false.
Proof.
  intros Hctx Hnew Hb.
  rewrite (Append_running _ _ _ _ _ Hctx), Hnew, trackStartTime_eq.
  unfold addToBuilder. cbn [metricBuilder_ set_startTimeMs]. rewrite Hb.
  cbn. repeat split; try reflexivity; exact Hnew.
Qed.

(** X7: on an initialized transaction every sample of a scrape reaches the
    builder, once and in order, with the external labels appended after
    its own; each call returns reference 0 together with the answer the
    builder gave to that sample, and an error of the builder on one
    sample does not keep the next ones from being handed over: the
    builder ends as the fold of [AddDataPoint] over the scrape. *)
Theorem appendAll_delivers_every_sample tr (ss : list sample) (b : metricBuilder) :
  Done (ctx tr) = false ->
  isNew tr = false ->
  metricBuilder_ tr = Some b ->
  map trace (appendAll tr ss)
  = map (fun s => [EvAddDataPoint (overlaid (sLabels s) (externalLabels tr))
                     (sT s) (sV s)]) ss
  /\ map result (appendAll tr ss)
     = map (fun e => Returned (0, e)) (builderAnswers b (externalLabels tr) ss)
  /\ metricBuilder_ (finalState tr ss)
     = Some (fold_left
               (fun b s => fst (AddDataPoint b
                                  (overlaid (sLabels s) (externalLabels tr))
                                  (sT s) (sV s))) ss b).
Proof.
  revert tr b. induction ss as [|s ss IH]; intros tr b Hctx Hnew Hb.
  - cbn. auto.
  - destruct (Append_delivers tr 0 (sLabels s) (sT s) (sV s) b Hctx Hnew Hb)
      as (Hres & Htrace & Hb' & Hctx' & Hext & Hnew').
    rewrite <- Hctx' in Hctx.
    destruct (IH _ _ Hctx Hnew' Hb') as (IHt & IHr & IHb).
    rewrite Hext in IHt, IHr, IHb.
    cbn [appendAll map fold_left builderAnswers]. rewrite finalState_cons.
    unfold appendSample in *. rewrite Htrace, Hres, IHt, IHr, IHb.
    repeat split.
Qed.

End AppendFacts.

Section CommitFacts.

Context `{Collaborators}.

Implicit Types (tr : transaction) (ls : labels.Labels) (t : Z) (v : float64).

Ltac commit_paths tr :=
  unfold Commit, convertAndForward, adjustAndForward, forward;
  destruct (isNew tr) eqn:?Hnew; cbn -[is_zero];
  [| destruct (metricBuilder_ tr) as [?b|] eqn:?Hb; cbn -[is_zero];
     [ destruct (Build _) as [[?b' ?metrics] [?e|]] eqn:?Hbuild; cbn -[is_zero];
       [| destruct (useStartTimeMetric tr) eqn:?Hmode; cbn -[is_zero];
          [ destruct (is_zero (startTime _)) eqn:?Hzero; cbn;
            [| destruct (0 <? Z.of_nat (length (adjustStartTimestamp _ _)))
                 eqn:?Hlen; cbn;
               [ destruct (0 <? pdata.DataPointCount _) eqn:?Hpoints; cbn |] ]
          | destruct (0 <? Z.of_nat (length _)) eqn:?Hlen; cbn;
            rewrite ?Hmode; cbn;
            ( destruct (jobsMap tr) as [?jm|] eqn:?Hjm; cbn;
              [ try (destruct (0 <? pdata.DataPointCount _) eqn:?Hpoints; cbn)
              |] ) ] ]
     |] ].

(** X8: a [Commit] of an initialized transaction leaves the start-time
    tracking unset, whichever way it ends (error of the builder, missing
    start time, forwarded batch, failing sink), so that the next [Append]
    records its own timestamp. *)
Theorem Commit_restarts_tracking tr :
  isNew tr = false ->
  startTimeMs (state (Commit tr)) = -1
  /\ forall (ref : SeriesRef) ls t v,
       startTimeMs (state (Append (state (Commit tr)) ref ls t v)) = t.
Proof.
  intros Hinit.
  assert (Hreset : startTimeMs (state (Commit tr)) = -1).
  { commit_paths tr; try reflexivity; congruence. }
  split; [exact Hreset|]. intros ref ls t v.
  rewrite Append_startTimeMs, Hreset. reflexivity.
Qed.

(** X9: [Commit] assigns the start-time tracking, the builder and the jobs
    map only: the id, the context, the new flag, the sink, the mode, the
    metadata service, the external labels and the bound job, instance,
    node and resource are after it what they were before. *)
Theorem Commit_keeps_configuration tr :
  configuration (state (Commit tr)) = configuration tr
  /\ boundIdentity (state (Commit tr)) = boundIdentity tr.
Proof. commit_paths tr; split; reflexivity. Qed.

(** X10: when [Commit] hands a batch to the sink, it does so once, it
    returns what the sink answered, error or not, and reports that answer
    with a positive number of points as its last step. *)
Theorem Commit_returns_sink_error tr (md : pdata.Metrics) :
  In (EvConsumeMetrics md) (trace (Commit tr)) ->
  result (Commit tr) = Returned (sink tr md)
  /\ List.filter isConsumeMetrics (trace (Commit tr)) = [EvConsumeMetrics md]
  /\ exists n, 0 < n
       /\ last (trace (Commit tr)) = Some (EvEndMetricsOp dataformat n (sink tr md)).
Proof.
  commit_paths tr; intros Hin;
    repeat (destruct Hin as [Hin|Hin]; try discriminate Hin);
    try contradiction;
    injection Hin as <-; (split; [reflexivity|]); (split; [reflexivity|]);
    eexists; (split; [apply Z.ltb_lt; eassumption|reflexivity]).
Qed.

(** X11: a [Commit] of an initialized transaction that returns has
    started exactly one obsreport operation, as its first step, and has
    ended exactly one, as its last step, with the error it returns. *)
Theorem Commit_reports_what_it_returns tr (e : option error) :
  isNew tr = false ->
  result (Commit tr) = Returned e ->
  head (trace (Commit tr)) = Some EvStartMetricsOp
  /\ List.filter isStartMetricsOp (trace (Commit tr)) = [EvStartMetricsOp]
  /\ exists n, last (trace (Commit tr)) = Some (EvEndMetricsOp dataformat n e)
       /\ List.filter isEndMetricsOp (trace (Commit tr))
          = [EvEndMetricsOp dataformat n e].
Proof.
  intros Hinit. commit_paths tr; try congruence; intros Hres;
    try discriminate Hres; injection Hres as <-;
    repeat split; eexists; split; reflexivity.
Qed.

(** X12: a [Commit] never runs both adjustments: the start-time stamping
    occurs only in start-time-metric mode, the jobs-map adjuster only in
    the other mode; and it calls [Build] at most once. *)
Theorem Commit_adjusts_in_one_mode tr :
  existsb isAdjustStartTimestamp (trace (Commit tr))
    && existsb isAdjustMetrics (trace (Commit tr)) = false
  /\ existsb isAdjustStartTimestamp (trace (Commit tr))
       && negb (useStartTimeMetric tr) = false
  /\ existsb isAdjustMetrics (trace (Commit tr)) && useStartTimeMetric tr = false
  /\ (length (List.filter isBuild (trace (Commit tr))) <= 1)%nat.
Proof.
  commit_paths tr; rewrite ?Hmode; cbn; repeat split; lia.
Qed.

(** X13: in start-time-metric mode the batch handed to the sink is the
    built metrics, stamped with the builder's start time, translated and
    passed through the staleness pass; the jobs map is not touched. *)
Theorem Commit_startTime_dataflow tr (b b' : metricBuilder)
    (metrics : list metricspb.Metric) :
  isNew tr = false ->
  useStartTimeMetric tr = true ->
  metricBuilder_ tr = Some b ->
  Build b = (b', metrics, None) ->
  is_zero (startTime b') = false ->
  existsb isConsumeMetrics (trace (Commit tr)) = true ->
  List.filter isConsumeMetrics (trace (Commit tr))
  = [EvConsumeMetrics
       (fixStaleMetrics
          (OCToMetrics (node tr) (resource tr)
             (adjustStartTimestamp (startTime b') metrics)))]
  /\ jobsMap (state (Commit tr)) = jobsMap tr.
Proof.
  intros Hnew Hmode Hb Hbuild Hzero.
  unfold Commit, convertAndForward, adjustAndForward, forward.
  rewrite Hnew. cbn -[is_zero]. rewrite Hb, Hbuild. cbn -[is_zero].
  rewrite Hmode, Hzero. cbn.
  destruct (0 <? Z.of_nat (length (adjustStartTimestamp _ metrics))); cbn;
    rewrite ?Hmode; cbn; [|discriminate].
  destruct (0 <? pdata.DataPointCount _); cbn; [|discriminate].
  intros _. split; reflexivity.
Qed.

(** X15: in jobs-map mode the number of points [Commit] reports, and on
    which it decides whether to call the sink, is the number of data
    points of the translated batch: it is counted before the adjuster
    runs, and the staleness pass does not change it. *)
Theorem Commit_counts_before_adjusting tr (b b' : metricBuilder)
    (jm : JobsMapPdata) (metrics : list metricspb.Metric) :
  isNew tr = false ->
  useStartTimeMetric tr = false ->
  metricBuilder_ tr = Some b ->
  jobsMap tr = Some jm ->
  Build b = (b', metrics, None) ->
  metrics <> [] ->
  existsb isConsumeMetrics (trace (Commit tr))
  = (0 <? pdata.DataPointCount (OCToMetrics (node tr) (resource tr) metrics))
  /\ exists e,
       last (trace (Commit tr))
       = Some (EvEndMetricsOp dataformat
                 (pdata.DataPointCount
                    (OCToMetrics (node tr) (resource tr) metrics)) e).
Proof.
  intros Hnew Hmode Hb Hjm Hbuild Hne.
  unfold Commit, convertAndForward, adjustAndForward, forward.
  rewrite Hnew. cbn. rewrite Hb, Hbuild. cbn. rewrite Hmode. cbn.
  destruct metrics as [|m metrics]; [contradiction|].
  cbn [length]. replace (0 <? Z.of_nat (S (length metrics))) with true
    by (symmetry; apply Z.ltb_lt; lia).
  cbn. rewrite ?Hmode, ?Hjm. cbn.
  rewrite fixStaleMetrics_DataPointCount.
  destruct (0 <? pdata.DataPointCount _); cbn; split; eauto.
Qed.


(** ** Rollback *)



(** X18: the first [Append] after a [Rollback], like the first one of a
    transaction just made, records its own timestamp as the start-time
    tracking, whatever was recorded before. *)
Theorem Append_after_Rollback_tracks_anew tr (ref : SeriesRef) ls t v
    (id0 : Z) (ctx0 : Context_) (jm : option JobsMapPdata) (mode : bool)
    (regex : string) (ms0 : metadataService) (sink0 : consumer_Metrics)
    (ext : labels.Labels) :
  startTimeMs (state (Append (state (Rollback tr)) ref ls t v)) = t
  /\ startTimeMs
       (state (Append (newTransaction id0 ctx0 jm mode regex ms0 sink0 ext)
                 ref ls t v)) = t.
Proof. rewrite !Append_startTimeMs. split; reflexivity. Qed.

End CommitFacts.

Section StalenessFacts.

Context `{Collaborators}.

Lemma IsStaleNaN_zero : value.IsStaleNaN zero = false.
Proof. reflexivity. Qed.

Lemma fixStaleNumberPoint_again dp :
  fixStaleNumberPoint (fixStaleNumberPoint dp) = fixStaleNumberPoint dp.
Proof.
  unfold fixStaleNumberPoint.
  destruct (value.IsStaleNaN (pdata.DoubleVal dp)) eqn:Hs; cbn;
    [reflexivity|]. rewrite Hs. reflexivity.
Qed.

Lemma fixStaleHistogramPoint_again dp :
  fixStaleHistogramPoint (fixStaleHistogramPoint dp) = fixStaleHistogramPoint dp.
Proof.
  unfold fixStaleHistogramPoint.
  destruct (value.IsStaleNaN (pdata.hSum dp)) eqn:Hs; cbn;
    [reflexivity|]. rewrite Hs. reflexivity.
Qed.

Lemma fixStaleSummaryPoint_again dp :
  fixStaleSummaryPoint (fixStaleSummaryPoint dp) = fixStaleSummaryPoint dp.
Proof.
  unfold fixStaleSummaryPoint.
  destruct (value.IsStaleNaN (pdata.sSum dp)) eqn:Hs; cbn;
    [reflexivity|]. rewrite Hs. reflexivity.
Qed.

Lemma map_again {A} (f : A -> A) (l : list A) :
  (forall x, f (f x) = f x) -> map f (map f l) = map f l.
Proof.
  intros Hf. rewrite map_map. apply map_ext. exact Hf.
Qed.

Lemma fixStaleData_again (d : pdata.MetricData) :
  fixStaleData (fixStaleData d) = fixStaleData d.
Proof.
  destruct d; cbn; try reflexivity; f_equal;
    unfold fixStaleGauge, fixStaleSum, fixStaleHistogram, fixStaleSummary;
    apply map_again;
    auto using fixStaleNumberPoint_again, fixStaleHistogramPoint_again,
      fixStaleSummaryPoint_again.
Qed.

(** X19: the staleness pass is idempotent: a batch that went through it
    goes through it again unchanged. *)
Theorem fixStaleMetrics_idempotent (md : pdata.Metrics) :
  fixStaleMetrics (fixStaleMetrics md) = fixStaleMetrics md.
Proof.
  unfold fixStaleMetrics. apply map_again. intros rm.
  unfold fixStaleRM. cbn. f_equal. apply map_again. intros ilm.
  unfold fixStaleILM. cbn. f_equal. apply map_again. intros m.
  unfold fixStaleMetric. cbn. f_equal. apply fixStaleData_again.
Qed.

Lemma flat_map_map {A B C} (f : B -> list C) (g : A -> B) (l : list A) :
  flat_map f (map g l) = flat_map (fun x => f (g x)) l.
Proof.
  induction l as [|x l IH]; cbn; [reflexivity|]. rewrite IH. reflexivity.
Qed.

Lemma flat_map_pointwise {A B} (f g : A -> list B) (l : list A) :
  (forall x, f x = g x) -> flat_map f l = flat_map g l.
Proof.
  intros Hfg. induction l as [|x l IH]; cbn; [reflexivity|].
  rewrite Hfg, IH. reflexivity.
Qed.

Lemma map_flat_map {A B C} (f : B -> C) (g : A -> list B) (l : list A) :
  map f (flat_map g l) = flat_map (fun x => map f (g x)) l.
Proof.
  induction l as [|x l IH]; cbn; [reflexivity|].
  rewrite map_app, IH. reflexivity.
Qed.

Lemma dataPoints_fixStaleData (d : pdata.MetricData) :
  dataPoints (fixStaleData d) = map fixStalePoint (dataPoints d).
Proof.
  destruct d; cbn; try reflexivity;
    unfold fixStaleGauge, fixStaleSum, fixStaleHistogram, fixStaleSummary;
    rewrite !map_map; reflexivity.
Qed.

(** The points of the batch after the pass are the points before it, each
    put through [fixStalePoint]. *)
Lemma allPoints_fixStaleMetrics (md : pdata.Metrics) :
  allPoints (fixStaleMetrics md) = map fixStalePoint (allPoints md).
Proof.
  unfold allPoints, fixStaleMetrics.
  rewrite flat_map_map, map_flat_map. apply flat_map_pointwise. intros rm.
  unfold resourcePoints. cbn.
  rewrite flat_map_map, map_flat_map. apply flat_map_pointwise. intros ilm.
  unfold libraryPoints. cbn.
  rewrite flat_map_map, map_flat_map. apply flat_map_pointwise. intros m.
  unfold metricPoints. cbn. apply dataPoints_fixStaleData.
Qed.

Lemma markedStale_fixStalePoint (p : anyPoint) :
  markedStale (fixStalePoint p) = false.
Proof.
  destruct p as [dp|dp|dp|dp]; cbn; [| |reflexivity|].
  - unfold fixStaleNumberPoint.
    destruct (value.IsStaleNaN (pdata.DoubleVal dp)) eqn:Hs; cbn;
      [reflexivity|exact Hs].
  - unfold fixStaleHistogramPoint.
    destruct (value.IsStaleNaN (pdata.hSum dp)) eqn:Hs; cbn;
      [reflexivity|exact Hs].
  - unfold fixStaleSummaryPoint.
    destruct (value.IsStaleNaN (pdata.sSum dp)) eqn:Hs; cbn;
      [reflexivity|exact Hs].
Qed.

(** X20: after the staleness pass no gauge or sum point of the batch holds
    the stale marker as its double value, and no histogram or summary
    point holds it as its sum. *)
Theorem fixStaleMetrics_clears_markers (md : pdata.Metrics) :
  hasStaleMarker (fixStaleMetrics md) = false.
Proof.
  unfold hasStaleMarker. rewrite allPoints_fixStaleMetrics.
  induction (allPoints md) as [|p ps IH]; cbn; [reflexivity|].
  rewrite markedStale_fixStalePoint. exact IH.
Qed.

Lemma map_fixed {A} (f : A -> A) (l : list A) :
  Forall (fun x => f x = x) l -> map f l = l.
Proof. induction 1 as [|x l Hx _ IH]; cbn; [reflexivity|]. rewrite Hx, IH. reflexivity. Qed.

Lemma existsb_false_Forall {A} (p : A -> bool) (l : list A) :
  existsb p l = false -> Forall (fun x => p x = false) l.
Proof.
  induction l as [|x l IH]; cbn; intros Hl; constructor;
    apply orb_false_elim in Hl as [Hx Hl]; auto.
Qed.

Lemma Forall_flat_map {A B} (P : B -> Prop) (f : A -> list B) (l : list A) :
  Forall P (flat_map f l) -> Forall (fun x => Forall P (f x)) l.
Proof.
  induction l as [|x l IH]; cbn; intros Hl; constructor;
    apply Forall_app in Hl as [Hx Hl]; auto.
Qed.

Lemma Forall_map_inv {A B} (P : B -> Prop) (f : A -> B) (l : list A) :
  Forall P (map f l) -> Forall (fun x => P (f x)) l.
Proof.
  induction l as [|x l IH]; cbn; intros Hl; constructor;
    inversion Hl; subst; auto.
Qed.

Lemma fixStaleData_unmarked (d : pdata.MetricData) :
  Forall (fun p => markedStale p = false) (dataPoints d) ->
  fixStaleData d = d.
Proof.
  destruct d; cbn; intros Hd; try reflexivity; f_equal;
    apply Forall_map_inv in Hd;
    unfold fixStaleGauge, fixStaleSum, fixStaleHistogram, fixStaleSummary;
    apply map_fixed; eapply Forall_impl; try exact Hd; cbn; intros dp Hs;
    unfold fixStaleNumberPoint, fixStaleHistogramPoint, fixStaleSummaryPoint;
    rewrite Hs; reflexivity.
Qed.

(** X21: a batch none of whose points holds the stale marker (as double
    value, or as sum) leaves the staleness pass exactly as it entered, an
    ordinary NaN included. *)
Theorem fixStaleMetrics_unmarked_unchanged (md : pdata.Metrics) :
  hasStaleMarker md = false ->
  fixStaleMetrics md = md.
Proof.
  unfold hasStaleMarker, allPoints, fixStaleMetrics. intros Hmd.
  apply existsb_false_Forall, Forall_flat_map in Hmd.
  apply map_fixed. eapply Forall_impl; [exact Hmd|]. cbn. intros rm Hrm.
  destruct rm as [attrs ilms]. unfold fixStaleRM, resourcePoints in *. cbn in *.
  f_equal. apply Forall_flat_map in Hrm.
  apply map_fixed. eapply Forall_impl; [exact Hrm|]. cbn. intros ilm Hilm.
  destruct ilm as [name version ms]. unfold fixStaleILM, libraryPoints in *.
  cbn in *. f_equal. apply Forall_flat_map in Hilm.
  apply map_fixed. eapply Forall_impl; [exact Hilm|]. cbn. intros m Hm.
  destruct m as [name' descr unit d]. unfold fixStaleMetric, metricPoints in *.
  cbn in *. f_equal. apply fixStaleData_unmarked, Hm.
Qed.

Lemma dataShape_fixStaleData (d : pdata.MetricData) :
  dataShape (fixStaleData d) = dataShape d.
Proof. destruct d; reflexivity. Qed.

Lemma metricPointCount_fixStaleMetric (m : pdata.Metric) :
  pdata.metricPointCount (fixStaleMetric m) = pdata.metricPointCount m.
Proof.
  unfold pdata.metricPointCount. cbn. destruct (pdata.Data m); cbn;
    unfold fixStaleGauge, fixStaleSum, fixStaleHistogram, fixStaleSummary;
    rewrite ?length_map; reflexivity.
Qed.

(** X22: the staleness pass keeps the shape of the batch: the number of
    data points is the same, and at every position the metric has the
    name, description, unit, data type, temporality and monotonicity it
    had, and as many points. *)
Theorem fixStaleMetrics_keeps_shape (md : pdata.Metrics) :
  pdata.DataPointCount (fixStaleMetrics md) = pdata.DataPointCount md
  /\ forall i j k : nat,
       option_Forall2
         (fun m m' =>
            pdata.Name m' = pdata.Name m
            /\ pdata.Description m' = pdata.Description m
            /\ pdata.Unit m' = pdata.Unit m
            /\ dataShape (pdata.Data m') = dataShape (pdata.Data m)
            /\ pdata.metricPointCount m' = pdata.metricPointCount m)
         (metricAt md i j k) (metricAt (fixStaleMetrics md) i j k).
Proof.
  split; [apply fixStaleMetrics_DataPointCount|]. intros i j k.
  unfold metricAt, fixStaleMetrics.
  rewrite lookup_map. destruct (md !! i) as [rm|]; cbn; [|constructor].
  rewrite lookup_map.
  destruct (pdata.InstrumentationLibraryMetrics_ rm !! j) as [ilm|]; cbn;
    [|constructor].
  rewrite lookup_map.
  destruct (pdata.Metrics_ ilm !! k) as [m|]; cbn; constructor.
  repeat split; [apply dataShape_fixStaleData|apply metricPointCount_fixStaleMetric].
Qed.

End StalenessFacts.

(** ** The stamping and the resource *)

Lemma adjustStartTimestampMetric_again (ts1 ts2 : timestamppb.Timestamp)
    (m : metricspb.Metric) :
  adjustStartTimestampMetric ts2 (adjustStartTimestampMetric ts1 m)
  = adjustStartTimestampMetric ts2 m.
Proof.
  unfold adjustStartTimestampMetric, metricspb.GetMetricDescriptor,
    metricspb.GetTimeseries.
  destruct (metricspb.GetType (metricspb.MetricDescriptor_ m)) eqn:Hty;
    cbn; rewrite ?Hty; try reflexivity;
    f_equal; rewrite map_map; apply map_ext; reflexivity.
Qed.

(** X23: stamping a list of metrics twice is stamping it with the second
    start time: the later stamp replaces the earlier one on every
    timeseries that is stamped at all, and the gauges stay as they were.
    In particular the stamping is idempotent. *)
Theorem adjustStartTimestamp_last_wins (t1 t2 : float64)
    (metrics : list metricspb.Metric) :
  adjustStartTimestamp t2 (adjustStartTimestamp t1 metrics)
  = adjustStartTimestamp t2 metrics.
Proof.
  unfold adjustStartTimestamp. rewrite map_map. apply map_ext.
  intros m. apply adjustStartTimestampMetric_again.
Qed.

Section ResourceFacts.

Context `{Collaborators}.

(** X24: the resource of a target carries exactly the four labels job,
    instance, port and scheme: the job and the instance as given, the
    scheme as given, and as port what [net.SplitHostPort] made of the
    instance (also when it failed); the node is named after the job. *)
Theorem createNodeAndResource_labels (job instance scheme : string) :
  resourcepb.Labels (snd (createNodeAndResource job instance scheme)) !! jobAttr
  = Some job
  /\ resourcepb.Labels (snd (createNodeAndResource job instance scheme))
       !! instanceAttr = Some instance
  /\ resourcepb.Labels (snd (createNodeAndResource job instance scheme))
       !! portAttr = Some (snd (fst (SplitHostPort instance)))
  /\ resourcepb.Labels (snd (createNodeAndResource job instance scheme))
       !! schemeAttr = Some scheme
  /\ dom (resourcepb.Labels (snd (createNodeAndResource job instance scheme)))
     = ({[ jobAttr; instanceAttr; portAttr; schemeAttr ]} : gset string)
  /\ commonpb.ServiceInfo_ (fst (createNodeAndResource job instance scheme))
     = Some {| commonpb.Name := job |}.
Proof.
  unfold createNodeAndResource.
  destruct (SplitHostPort instance) as [[host port] err]. cbn.
  repeat split.
Qed.

End ResourceFacts.

Section ErrorOrigins.

Context `{Collaborators}.

Implicit Types (tr : transaction) (ls : labels.Labels) (t : Z) (v : float64).

(** X25: an error returned by [Append] is the aborted error of a
    cancelled context, or, on a new transaction, the no-job-instance
    error or the error of the metadata lookup made by this call, or else
    it is the answer of the builder to this sample: of the builder the
    transaction held, when it was initialized, and otherwise of the
    builder this call created from the metadata it looked up under the
    job and instance of the sample's labels. *)
Theorem Append_error_origins tr (ref r : SeriesRef) ls t v (e : error) :
  result (Append tr ref ls t v) = Returned (r, Some e) ->
  (Done (ctx tr) = true /\ e = errTransactionAborted)
  \/ (isNew tr = true /\ e = errNoJobInstance
      /\ trace (Append tr ref ls t v) = [])
  \/ (isNew tr = true
      /\ exists j i, ms tr j i = inr e
                     /\ trace (Append tr ref ls t v) = [EvMsGet j i])
  \/ (exists b : metricBuilder,
        snd (AddDataPoint b (overlaid ls (externalLabels tr)) t v) = Some e
        /\ existsb isAddDataPoint (trace (Append tr ref ls t v)) = true
        /\ ((isNew tr = false /\ metricBuilder_ tr = Some b)
            \/ (isNew tr = true
                /\ exists mc : MetadataCache,
                     ms tr
                       (labels.Get (overlaid ls (externalLabels tr)) JobLabel)
                       (labels.Get (overlaid ls (externalLabels tr))
                          InstanceLabel)
                     = inl mc
                     /\ b = newMetricBuilder mc (useStartTimeMetric tr)
                              (startTimeMetricRegex tr)
                              (if startTimeMs tr <? 0 then t
                               else startTimeMs tr)))).
Proof.
  unfold Append. rewrite trackStartTime_eq.
  cbn [ctx isNew externalLabels set_startTimeMs]. rewrite overlay_eq.
  destruct (Done (ctx tr)); cbn.
  - intros [= _ <-]. left. split; reflexivity.
  - destruct (isNew tr).
    + unfold initTransaction. cbn [ms jobsMap set_startTimeMs].
      match goal with |- context [if ?c then _ else _] => destruct c end; cbn.
      * intros [= _ <-]. right. left. repeat split.
      * match goal with |- context [ms tr ?j ?i] =>
          destruct (ms tr j i) as [mc|err] eqn:Hms; cbn end.
        -- intros Hres. do 3 right. eexists. split; [|split].
           ++ destruct (jobsMap tr); cbn in Hres; injection Hres as _ Hres;
                exact Hres.
           ++ destruct (jobsMap tr); reflexivity.
           ++ right. split; [reflexivity|]. exists mc. split; reflexivity.
        -- intros [= _ <-]. right. right. left. split; [reflexivity|].
           eexists _, _. split; [exact Hms|reflexivity].
    + unfold addToBuilder. cbn. destruct (metricBuilder_ tr) as [b|]; cbn;
        [|discriminate]. intros [= _ Hres]. do 3 right. exists b.
      split; [exact Hres|]. split; [reflexivity|]. left. split; reflexivity.
Qed.

(** X26: an error returned by [Commit] is the error of [Build], or the
    missing-start-time error in start-time-metric mode, or the answer of
    the sink to the batch handed to it; [Commit] has no other failure. *)
Theorem Commit_error_origins tr (e : error) :
  result (Commit tr) = Returned (Some e) ->
  (exists b, metricBuilder_ tr = Some b /\ snd (Build b) = Some e)
  \/ (e = errNoStartTimeMetrics /\ useStartTimeMetric tr = true)
  \/ (exists md, In (EvConsumeMetrics md) (trace (Commit tr))
                 /\ sink tr md = Some e).
Proof.
  unfold Commit, convertAndForward, adjustAndForward, forward.
  destruct (isNew tr); cbn -[is_zero]; [discriminate|].
  destruct (metricBuilder_ tr) as [b|]; cbn -[is_zero]; [|discriminate].
  destruct (Build b) as [[b' metrics] [e'|]] eqn:Hbuild; cbn -[is_zero].
  - intros [= <-]. left. exists b. rewrite Hbuild. split; reflexivity.
  - destruct (useStartTimeMetric tr) eqn:Hmode; cbn -[is_zero].
    + destruct (is_zero (startTime b')); cbn.
      * intros [= <-]. right. left. split; reflexivity.
      * destruct (0 <? Z.of_nat (length (adjustStartTimestamp _ metrics)));
          cbn; rewrite ?Hmode; cbn; [|discriminate].
        destruct (0 <? pdata.DataPointCount _); cbn; [|discriminate].
        intros [= Hsink]. right. right. eexists. split; [|exact Hsink].
        cbn. auto 10.
    + destruct (0 <? Z.of_nat (length metrics)); cbn; rewrite ?Hmode; cbn;
        (destruct (jobsMap tr) as [jm|]; cbn; [|discriminate]).
      * destruct (0 <? pdata.DataPointCount _); cbn; [|discriminate].
        intros [= Hsink]. right. right. eexists. split; [|exact Hsink].
        cbn. auto 10.
      * discriminate.
Qed.

End ErrorOrigins.

(** * The further properties on concrete scrapes *)

Lemma Append_missing_job_instance_witness :
  Done (ctx (Demo.fresh Demo.background)) = false
  /\ isNew (Demo.fresh Demo.background) = true
  /\ result (Append (Demo.fresh Demo.background) 0
               [Demo.lbl MetricNameLabel "up"] 7 Demo.one)
     = Returned (0, Some errNoJobInstance)
  /\ trace (Append (Demo.fresh Demo.background) 0
              [Demo.lbl MetricNameLabel "up"] 7 Demo.one) = []
  /\ state (Append (Demo.fresh Demo.background) 0
              [Demo.lbl MetricNameLabel "up"] 7 Demo.one)
     = set_startTimeMs
         (if startTimeMs (Demo.fresh Demo.background) <? 0 then 7
          else startTimeMs (Demo.fresh Demo.background))
         (Demo.fresh Demo.background).
Proof.
  do 2 (split; [reflexivity|]).
  apply (Append_missing_job_instance (Demo.fresh Demo.background) 0
           [Demo.lbl MetricNameLabel "up"] 7 Demo.one);
    [reflexivity|reflexivity|left; reflexivity].
Defined.

Lemma Append_lookup_failure_witness :
  result (appendSample (Demo.fresh Demo.background) (Demo.stray 7))
  = Returned (0, Some (errOther "unable to find a target group with job"))
  /\ trace (appendSample (Demo.fresh Demo.background) (Demo.stray 7))
     = [EvMsGet "other" "nowhere:1"].
Proof.
  destruct (Append_lookup_failure (Demo.fresh Demo.background) 0
              (sLabels (Demo.stray 7)) 7 (sV (Demo.stray 7))
              (errOther "unable to find a target group with job"))
    as (Hres & Htrace & _);
    [reflexivity|reflexivity|discriminate|discriminate|reflexivity|].
  split; [exact Hres|exact Htrace].
Defined.

Lemma Append_initializes_witness :
  isNew (state (appendSample (Demo.freshStartTime Demo.background)
                  (Demo.up 7 Demo.one))) = false
  /\ (job (state (appendSample (Demo.freshStartTime Demo.background)
                    (Demo.up 7 Demo.one))),
      instance (state (appendSample (Demo.freshStartTime Demo.background)
                         (Demo.up 7 Demo.one))))
     = ("", "")
  /\ trace (appendSample (Demo.freshStartTime Demo.background)
              (Demo.up 7 Demo.one))
     = [EvMsGet "node" "localhost:9100"; EvNewMetricBuilder 7;
        EvAddDataPoint (sLabels (Demo.up 7 Demo.one)) 7 Demo.one].
Proof.
  destruct (Append_initializes (Demo.freshStartTime Demo.background) 0
              (sLabels (Demo.up 7 Demo.one)) 7 Demo.one
              {| Demo.shared := [Demo.lbl SchemeLabel "http"] |})
    as (Hnew & _ & Hid & _ & _ & Htrace);
    [reflexivity|reflexivity|discriminate|discriminate|reflexivity|].
  split; [exact Hnew|]. split; [exact Hid|exact Htrace].
Defined.

Lemma Append_resolves_sample_labels_first_witness :
  List.filter isMsGet (trace (appendSample Demo.freshExternal (Demo.bare 7)))
  = [EvMsGet "node" "localhost:9100"]
  /\ List.filter isMsGet (trace (appendSample Demo.freshExternal (Demo.stray 7)))
     = [EvMsGet "other" "nowhere:1"].
Proof.
  split.
  - apply (Append_resolves_sample_labels_first Demo.freshExternal 0
             (sLabels (Demo.bare 7)) 7 Demo.one); reflexivity.
  - apply (Append_resolves_sample_labels_first Demo.freshExternal 0
             (sLabels (Demo.stray 7)) 7 (sV (Demo.stray 7))); reflexivity.
Defined.

Lemma appendAll_delivers_every_sample_witness :
  map trace (appendAll Demo.scraped [Demo.nameless 5; Demo.up 6 Demo.one])
  = [[EvAddDataPoint (sLabels (Demo.nameless 5)) 5 Demo.one];
     [EvAddDataPoint (sLabels (Demo.up 6 Demo.one)) 6 Demo.one]]
  /\ map result (appendAll Demo.scraped [Demo.nameless 5; Demo.up 6 Demo.one])
     = [Returned (0, Some errMetricNameNotFound); Returned (0, None)].
Proof.
  destruct (appendAll_delivers_every_sample (H := Demo.collaborators)
              Demo.scraped [Demo.nameless 5; Demo.up 6 Demo.one]
              {| Demo.bUseStartTimeMetric := false;
                 Demo.bStartTimeMetricRegex := "";
                 Demo.bIntervalStartTimeMs := 4;
                 Demo.bStartTime := 0;
                 Demo.bPoints := [Demo.up 4 Demo.one] |}
              eq_refl eq_refl eq_refl)
    as (Htrace & Hres & _).
  split; [exact Htrace|]. rewrite Hres. reflexivity.
Defined.

Lemma Commit_restarts_tracking_witness :
  isNew Demo.scraped = false
  /\ startTimeMs Demo.scraped = 4
  /\ startTimeMs (state (Commit Demo.scraped)) = -1
  /\ startTimeMs (state (appendSample (state (Commit Demo.scraped))
                           (Demo.up 9 Demo.one))) = 9.
Proof.
  do 2 (split; [reflexivity|]).
  destruct (Commit_restarts_tracking Demo.scraped) as (Hreset & Hnext);
    [reflexivity|].
  split; [exact Hreset|]. apply Hnext.
Defined.

Lemma Commit_returns_sink_error_witness :
  result (Commit Demo.scrapedRefused) = Returned (Some (errOther "sink is down"))
  /\ length (List.filter isConsumeMetrics (trace (Commit Demo.scrapedRefused)))
     = 1%nat.
Proof.
  destruct (Commit_returns_sink_error Demo.scrapedRefused
              (Demo.ocToMetrics (node Demo.scrapedRefused)
                 (resource Demo.scrapedRefused)
                 [Demo.toMetric (Demo.up 4 Demo.one)]))
    as (Hres & Hone & _).
  - vm_compute. do 5 right. left. reflexivity.
  - split; [exact Hres|]. rewrite Hone. reflexivity.
Defined.

Lemma Commit_reports_what_it_returns_witness :
  isNew Demo.scrapedRefused = false
  /\ head (trace (Commit Demo.scrapedRefused)) = Some EvStartMetricsOp
  /\ last (trace (Commit Demo.scrapedRefused))
     = Some (EvEndMetricsOp dataformat 1 (Some (errOther "sink is down"))).
Proof.
  split; [reflexivity|].
  destruct (Commit_reports_what_it_returns Demo.scrapedRefused
              (Some (errOther "sink is down")))
    as (Hhead & _ & n & Hlast & _); [reflexivity|reflexivity|].
  split; [exact Hhead|]. reflexivity.
Defined.

Lemma Commit_startTime_dataflow_witness :
  useStartTimeMetric Demo.scrapedWithStartTime = true
  /\ jobsMap (state (Commit Demo.scrapedWithStartTime)) = None
  /\ length (List.filter isConsumeMetrics
               (trace (Commit Demo.scrapedWithStartTime))) = 1%nat.
Proof.
  split; [reflexivity|].
  destruct (Commit_startTime_dataflow (H := Demo.collaborators)
              Demo.scrapedWithStartTime
              {| Demo.bUseStartTimeMetric := true;
                 Demo.bStartTimeMetricRegex := "process_start_time_seconds";
                 Demo.bIntervalStartTimeMs := 4;
                 Demo.bStartTime := 0x3ff8000000000000;
                 Demo.bPoints := [Demo.processStartTime 4 0x3ff8000000000000;
                                  Demo.up 4 Demo.one] |}
              {| Demo.bUseStartTimeMetric := true;
                 Demo.bStartTimeMetricRegex := "process_start_time_seconds";
                 Demo.bIntervalStartTimeMs := 4;
                 Demo.bStartTime := 0x3ff8000000000000;
                 Demo.bPoints := [Demo.processStartTime 4 0x3ff8000000000000;
                                  Demo.up 4 Demo.one] |}
              (map Demo.toMetric [Demo.processStartTime 4 0x3ff8000000000000;
                                  Demo.up 4 Demo.one])
              eq_refl eq_refl eq_refl eq_refl eq_refl eq_refl)
    as (Hflow & Hjm).
  split; [exact Hjm|]. rewrite Hflow. reflexivity.
Defined.

Lemma Commit_jobsMap_dataflow_witness :
  useStartTimeMetric Demo.scraped = false
  /\ length (List.filter isConsumeMetrics (trace (Commit Demo.scraped))) = 1%nat.
Proof.
  split; [reflexivity|].
  rewrite (Commit_jobsMap_dataflow (H := Demo.collaborators) Demo.scraped
             {| Demo.bUseStartTimeMetric := false;
                Demo.bStartTimeMetricRegex := "";
                Demo.bIntervalStartTimeMs := 4;
                Demo.bStartTime := 0;
                Demo.bPoints := [Demo.up 4 Demo.one] |}
             {| Demo.bUseStartTimeMetric := false;
                Demo.bStartTimeMetricRegex := "";
                Demo.bIntervalStartTimeMs := 4;
                Demo.bStartTime := 0;
                Demo.bPoints := [Demo.up 4 Demo.one] |}
             0%nat (map Demo.toMetric [Demo.up 4 Demo.one])
             eq_refl eq_refl eq_refl eq_refl eq_refl eq_refl).
  reflexivity.
Defined.

Lemma Commit_counts_before_adjusting_witness :
  jobsMap Demo.scraped = Some 0%nat
  /\ existsb isConsumeMetrics (trace (Commit Demo.scraped)) = true.
Proof.
  split; [reflexivity|].
  destruct (Commit_counts_before_adjusting (H := Demo.collaborators)
              Demo.scraped
              {| Demo.bUseStartTimeMetric := false;
                 Demo.bStartTimeMetricRegex := "";
                 Demo.bIntervalStartTimeMs := 4;
                 Demo.bStartTime := 0;
                 Demo.bPoints := [Demo.up 4 Demo.one] |}
              {| Demo.bUseStartTimeMetric := false;
                 Demo.bStartTimeMetricRegex := "";
                 Demo.bIntervalStartTimeMs := 4;
                 Demo.bStartTime := 0;
                 Demo.bPoints := [Demo.up 4 Demo.one] |}
              0%nat (map Demo.toMetric [Demo.up 4 Demo.one])
              eq_refl eq_refl eq_refl eq_refl eq_refl
              ltac:(discriminate))
    as (Hsink & _).
  rewrite Hsink. reflexivity.
Defined.


Lemma fixStaleMetrics_unmarked_unchanged_witness :
  hasStaleMarker Demo.liveBatch = false
  /\ fixStaleMetrics (H := Demo.collaborators) Demo.liveBatch = Demo.liveBatch.
Proof.
  split; [reflexivity|].
  apply (fixStaleMetrics_unmarked_unchanged (H := Demo.collaborators)
           Demo.liveBatch).
  reflexivity.
Defined.

Lemma Append_error_origins_witness :
  result (appendSample Demo.scraped (Demo.nameless 5))
  = Returned (0, Some errMetricNameNotFound)
  /\ exists b : Demo.builder,
       metricBuilder_ Demo.scraped = Some b
       /\ snd (Demo.addDataPoint b (sLabels (Demo.nameless 5)) 5 Demo.one)
          = Some errMetricNameNotFound.
Proof.
  split; [reflexivity|].
  destruct (Append_error_origins Demo.scraped 0 0 (sLabels (Demo.nameless 5)) 5
              Demo.one errMetricNameNotFound eq_refl)
    as [[Hdone _] | [[Hnew _] | [[Hnew _] | (b & Hanswer & _ & Hwhich)]]];
    [discriminate Hdone|discriminate Hnew|discriminate Hnew|].
  destruct Hwhich as [[_ Hb] | [Hnew _]]; [|discriminate Hnew].
  exists b. split; [exact Hb|exact Hanswer].
Defined.

Lemma Commit_error_origins_witness :
  result (Commit Demo.scrapedRefused) = Returned (Some (errOther "sink is down"))
  /\ useStartTimeMetric Demo.scrapedRefused = false
  /\ exists md, In (EvConsumeMetrics md) (trace (Commit Demo.scrapedRefused))
                /\ sink Demo.scrapedRefused md = Some (errOther "sink is down").
Proof.
  do 2 (split; [reflexivity|]).
  destruct (Commit_error_origins Demo.scrapedRefused
              (errOther "sink is down") eq_refl)
    as [(b & Hb & Hbuild) | [[_ Hmode] | Hsink]].
  - exfalso. vm_compute in Hb. injection Hb as <-. discriminate Hbuild.
  - discriminate Hmode.
  - exact Hsink.
Defined.
